(** * Lesion-wise and voxel-wise segmentation metrics (utils/eval_utils.py)

    A shallow embedding of [compute_dice],
    [compute_absolute_volume_difference], [compute_number_of_clusters] and
    [compute_lesion_f1_score], followed by the properties that the
    specification states about them.

    Conventions of the embedding:
    - a NumPy array is a record of a 3-D shape and its elements in C order;
    - Python integers and NumPy integer scalars are [Z]; the cast to
      [int16] writes its wrap-around out;
    - a floating-point score is the exact rational ([Q]) of the same
      expression: rounding is not modelled;
    - a raised exception is the [Raise] case of [result];
    - the inputs are boolean arrays already, so the leading
      [np.asarray(x).astype(np.bool)] of each function is the identity
      ([np.bool] and [np.float] being the built-in types, as in the NumPy
      the code was written for);
    - [cc3d.connected_components] is an external library: the metrics are
      parametrised by it, the theorems assume its contract, and a flood-fill
      labeler that meets the contract instantiates them. *)

From Stdlib Require Import ZArith QArith Qabs List Bool Lia.
From Stdlib Require Import Lqa Qfield.
From stdpp Require Import gmap list.
Import ListNotations.

Open Scope Z_scope.

(** ** Exceptions and results *)

Inductive exn : Type :=
| ValueError
| ZeroDivisionError
| UnboundLocalError.

Inductive result (A : Type) : Type :=
| Ok (a : A)
| Raise (e : exn).

Arguments Ok {A} a.
Arguments Raise {A} e.

Definition bind {A B : Type} (r : result A) (k : A -> result B) : result B :=
  match r with
  | Ok a => k a
  | Raise e => Raise e
  end.

Notation "'let*' x ':=' e 'in' k" := (bind e (fun x => k))
  (at level 10, x pattern, e at level 100, k at level 200).

(** ** NumPy arrays *)

Definition shape_t : Type := Z * Z * Z.

Record ndarray (A : Type) : Type := mk_ndarray {
  shape : shape_t;
  data : list A
}.

Arguments mk_ndarray {A} shape data.
Arguments shape {A} n.
Arguments data {A} n.

Definition size_of (s : shape_t) : Z :=
  let '(X, Y, Z) := s in X * Y * Z.

(** The record is an array when its dimensions are non-negative and it
    holds one element per cell. *)
Definition well_formed {A : Type} (a : ndarray A) : Prop :=
  let '(X, Y, Z) := shape a in
  0 <= X /\ 0 <= Y /\ 0 <= Z /\ Z.of_nat (length (data a)) = size_of (shape a).

Definition shape_eqb (s1 s2 : shape_t) : bool :=
  let '(X1, Y1, Z1) := s1 in
  let '(X2, Y2, Z2) := s2 in
  (X1 =? X2) && (Y1 =? Y2) && (Z1 =? Z2).

(** Python's [range(lo, hi)]. *)
Fixpoint range_from (lo : Z) (n : nat) : list Z :=
  match n with
  | O => []
  | S k => lo :: range_from (lo + 1) k
  end.

Definition py_range (lo hi : Z) : list Z := range_from lo (Z.to_nat (hi - lo)).

(** Broadcasting of one dimension against another. *)
Definition dim_compatible (a b : Z) : bool := (a =? b) || (a =? 1) || (b =? 1).

Definition dim_broadcast (a b : Z) : Z := if a =? 1 then b else a.

Definition broadcastable (s1 s2 : shape_t) : bool :=
  let '(X1, Y1, Z1) := s1 in
  let '(X2, Y2, Z2) := s2 in
  dim_compatible X1 X2 && dim_compatible Y1 Y2 && dim_compatible Z1 Z2.

Definition broadcast_shape (s1 s2 : shape_t) : shape_t :=
  let '(X1, Y1, Z1) := s1 in
  let '(X2, Y2, Z2) := s2 in
  (dim_broadcast X1 X2, dim_broadcast Y1 Y2, dim_broadcast Z1 Z2).

(** The elements of [a] read at shape [s]: a dimension of extent one is
    repeated along the target dimension. *)
Definition broadcast_to {A : Type} (d : A) (a : ndarray A) (s : shape_t) : list A :=
  let '(x, y, z) := shape a in
  let '(X, Y, Z) := s in
  flat_map (fun i =>
    flat_map (fun j =>
      map (fun k =>
        let i' := if x =? 1 then 0 else i in
        let j' := if y =? 1 then 0 else j in
        let k' := if z =? 1 then 0 else k in
        nth (Z.to_nat ((i' * y + j') * z + k')) (data a) d)
      (py_range 0 Z))
    (py_range 0 Y))
  (py_range 0 X).

Fixpoint zip_and (l1 l2 : list bool) : list bool :=
  match l1, l2 with
  | b1 :: t1, b2 :: t2 => (b1 && b2) :: zip_and t1 t2
  | _, _ => []
  end.

(** [np.logical_and]: elementwise on equal shapes, broadcast on compatible
    ones, [ValueError] otherwise. *)
Definition logical_and (a b : ndarray bool) : result (ndarray bool) :=
  if shape_eqb (shape a) (shape b) then
    Ok (mk_ndarray (shape a) (zip_and (data a) (data b)))
  else if broadcastable (shape a) (shape b) then
    let s := broadcast_shape (shape a) (shape b) in
    Ok (mk_ndarray s (zip_and (broadcast_to false a s) (broadcast_to false b s)))
  else Raise ValueError.

(** [a == l] for an integer array and a scalar. *)
Definition np_eq (a : ndarray Z) (l : Z) : ndarray bool :=
  mk_ndarray (shape a) (map (fun x => x =? l) (data a)).

(** [a.any()]. *)
Definition np_any (a : ndarray bool) : bool := existsb (fun b => b) (data a).

(** [a.sum()] of a boolean array: the number of true cells. *)
Fixpoint count_true (l : list bool) : Z :=
  match l with
  | [] => 0
  | b :: t => (if b then 1 else 0) + count_true t
  end.

Definition np_sum (a : ndarray bool) : Z := count_true (data a).

(** [a.max()]: NumPy raises [ValueError] on a zero-size array. *)
Definition np_max (a : ndarray Z) : result Z :=
  match data a with
  | [] => Raise ValueError
  | x :: t => Ok (fold_left Z.max t x)
  end.

(** [x.astype('int16')] of an integer scalar: reduction modulo 2^16 into
    the signed range. *)
Definition astype_int16 (x : Z) : Z := (x + 32768) mod 65536 - 32768.

(** ** Voxel-wise metrics *)

(** [compute_dice(im1, im2, empty_value)]. *)
Definition compute_dice (im1 im2 : ndarray bool) (empty_value : Q) : result Q :=
  if negb (shape_eqb (shape im1) (shape im2)) then Raise ValueError
  else
    let im_sum := np_sum im1 + np_sum im2 in
    if im_sum =? 0 then Ok empty_value
    else
      let* intersection := logical_and im1 im2 in
      Ok (2 * inject_Z (np_sum intersection) / inject_Z im_sum)%Q.

(** The warning issued by [warnings.warn]. *)
Inductive warning : Type :=
| ShapeMismatchWarning.

(** [compute_absolute_volume_difference(im1, im2, voxel_size)]: the result
    together with the warnings issued on the way. *)
Definition compute_absolute_volume_difference (im1 im2 : ndarray bool) (voxel_size : Q)
  : list warning * result Q :=
  let warned :=
    if negb (shape_eqb (shape im1) (shape im2)) then [ShapeMismatchWarning] else [] in
  let ground_truth_volume := (inject_Z (np_sum im1) * voxel_size)%Q in
  let prediction_volume := (inject_Z (np_sum im2) * voxel_size)%Q in
  let abs_vol_diff := Qabs (ground_truth_volume - prediction_volume) in
  (warned, Ok abs_vol_diff).

(** ** Connected components and lesion-wise metrics *)

Section Metrics.

(** [cc3d.connected_components(im, connectivity=c)]. *)
Variable connected_components : ndarray bool -> Z -> result (ndarray Z).

(** [compute_number_of_clusters(im, connectivity)]. *)
Definition compute_number_of_clusters (im : ndarray bool) (connectivity : Z) : result Z :=
  let* labeled_im := connected_components im connectivity in
  let* m := np_max labeled_im in
  Ok (astype_int16 m).

(** [compute_absolute_lesion_difference(ground_truth, prediction)]: the
    two counts are int16 scalars, and so are their difference and its
    absolute value. *)
Definition compute_absolute_lesion_difference (ground_truth prediction : ndarray bool)
  : result Z :=
  let* ground_truth_numb_lesion := compute_number_of_clusters ground_truth 26 in
  let* prediction_numb_lesion := compute_number_of_clusters prediction 26 in
  Ok (astype_int16
        (Z.abs (astype_int16 (ground_truth_numb_lesion - prediction_numb_lesion)))).

(** The loop over the ground-truth clusters: [tp] and [fn] after the
    labels of [labels] have been visited. *)
Fixpoint ground_truth_loop (labels : list Z) (labeled_ground_truth : ndarray Z)
    (intersection : ndarray bool) (tp fn : Z) : result (Z * Z) :=
  match labels with
  | [] => Ok (tp, fn)
  | cluster_label :: rest =>
    let binary_cluster_image := np_eq labeled_ground_truth cluster_label in
    let* overlap := logical_and binary_cluster_image intersection in
    if np_any overlap
    then ground_truth_loop rest labeled_ground_truth intersection (tp + 1) fn
    else ground_truth_loop rest labeled_ground_truth intersection tp (fn + 1)
  end.

(** The loop over the prediction clusters: [fp] after the labels of
    [labels] have been visited. *)
Fixpoint prediction_loop (labels : list Z) (labeled_prediction : ndarray Z)
    (ground_truth : ndarray bool) (fp : Z) : result Z :=
  match labels with
  | [] => Ok fp
  | cluster_label :: rest =>
    let binary_cluster_image := np_eq labeled_prediction cluster_label in
    let* overlap := logical_and binary_cluster_image ground_truth in
    if negb (np_any overlap)
    then prediction_loop rest labeled_prediction ground_truth (fp + 1)
    else prediction_loop rest labeled_prediction ground_truth fp
  end.

(** The counting part of [compute_lesion_f1_score]: the values of
    [tp], [fp] and [fn] when the final conditional is reached. *)
Definition lesion_wise_counts (ground_truth prediction : ndarray bool) (connectivity : Z)
  : result (Z * Z * Z) :=
  let* intersection := logical_and ground_truth prediction in
  let* labeled_ground_truth := connected_components ground_truth connectivity in
  let* gt_max := np_max labeled_ground_truth in
  let* tp_fn :=
    if gt_max >? 0
    then ground_truth_loop (py_range 1 (gt_max + 1)) labeled_ground_truth intersection 0 0
    else Ok (0, 0) in
  let '(tp, fn) := tp_fn in
  let* labeled_prediction := connected_components prediction connectivity in
  let* pred_max := np_max labeled_prediction in
  let* fp :=
    if pred_max >? 0
    then prediction_loop (py_range 1 (pred_max + 1)) labeled_prediction ground_truth 0
    else Ok 0 in
  Ok (tp, fp, fn).

(** Python's [a / b] on a float divisor. *)
Definition py_truediv (a b : Q) : result Q :=
  if Qeq_bool b 0 then Raise ZeroDivisionError else Ok (a / b)%Q.

(** The final conditional of [compute_lesion_f1_score] and its
    [return f1_score]: the local [f1_score] is [None] until assigned, and
    reading it unassigned raises [UnboundLocalError]. *)
Definition f1_from_counts (ground_truth : ndarray bool) (empty_value : Q)
    (tp fp fn : Z) : result Q :=
  let* f1_score :=
    if tp + fp + fn =? 0 then
      let* n := compute_number_of_clusters ground_truth 26 in
      if n =? 0 then Ok (Some empty_value) else Ok None
    else
      let* s := py_truediv (inject_Z tp)
                  (inject_Z tp + inject_Z (fp + fn) / 2)%Q in
      Ok (Some s) in
  match f1_score with
  | Some s => Ok s
  | None => Raise UnboundLocalError
  end.

(** [compute_lesion_f1_score(ground_truth, prediction, empty_value,
    connectivity)]. *)
Definition compute_lesion_f1_score (ground_truth prediction : ndarray bool)
    (empty_value : Q) (connectivity : Z) : result Q :=
  let* counts := lesion_wise_counts ground_truth prediction connectivity in
  let '(tp, fp, fn) := counts in
  f1_from_counts ground_truth empty_value tp fp fn.

End Metrics.

(** ** A flood-fill labeler *)

(** Modelled from the spec: [cc3d.connected_components] is an external
    library (section 4.1, ConnectivityLabeler). The labeler below visits
    the voxels in C order and floods each unlabeled foreground voxel's
    component with the next free label; it rejects a connectivity other
    than 6, 18 or 26 and returns an empty label array for a zero-size
    input. *)

Definition valid_connectivity (c : Z) : bool := (c =? 6) || (c =? 18) || (c =? 26).

Definition unit_steps : list Z := [-1; 0; 1].

(** The offsets of the 6-, 18- and 26-neighbourhoods: at most one, two or
    three coordinates change. *)
Definition offsets (connectivity : Z) : list (Z * Z * Z) :=
  let reach := if connectivity =? 6 then 1 else if connectivity =? 18 then 2 else 3 in
  List.filter
    (fun d : Z * Z * Z =>
       let '(dx, dy, dz) := d in
       let k := Z.abs dx + Z.abs dy + Z.abs dz in
       (1 <=? k) && (k <=? reach))
    (flat_map (fun dx => flat_map (fun dy => map (fun dz => (dx, dy, dz)) unit_steps)
                           unit_steps) unit_steps).

(** The flat indices of the neighbours of the voxel of flat index [i]. *)
Definition neighbours (s : shape_t) (connectivity : Z) (i : Z) : list Z :=
  let '(nx, ny, nz) := s in
  let x := i / (ny * nz) in
  let y := (i / nz) mod ny in
  let z := i mod nz in
  flat_map
    (fun d : Z * Z * Z =>
       let '(dx, dy, dz) := d in
       let x' := x + dx in
       let y' := y + dy in
       let z' := z + dz in
       if (0 <=? x') && (x' <? nx) && (0 <=? y') && (y' <? ny) && (0 <=? z') && (z' <? nz)
       then [(x' * ny + y') * nz + z']
       else [])
    (offsets connectivity).

(** The label store: foreground voxels only, [0] while unlabeled. *)
Fixpoint foreground_map (i : Z) (l : list bool) : gmap Z Z :=
  match l with
  | [] => ∅
  | b :: t =>
    let m := foreground_map (i + 1) t in
    if b then <[i:=0]> m else m
  end.

(** Flood the voxels reachable from the work list with label [l]. *)
Fixpoint fill (fuel : nat) (nb : Z -> list Z) (l : Z) (work : list Z) (m : gmap Z Z)
  : gmap Z Z :=
  match fuel with
  | O => m
  | S f =>
    match work with
    | [] => m
    | i :: w =>
      match m !! i with
      | Some 0 => fill f nb l (nb i ++ w) (<[i:=l]> m)
      | _ => fill f nb l w m
      end
    end
  end.

(** Visit the voxels in order; [K] is the last label given out. *)
Fixpoint scan (fuel : nat) (nb : Z -> list Z) (idxs : list Z) (m : gmap Z Z) (K : Z)
  : gmap Z Z * Z :=
  match idxs with
  | [] => (m, K)
  | i :: rest =>
    match m !! i with
    | Some 0 => scan fuel nb rest (fill fuel nb (K + 1) (nb i) (<[i:=K + 1]> m)) (K + 1)
    | _ => scan fuel nb rest m K
    end
  end.

Definition flood_fill_components (im : ndarray bool) (connectivity : Z)
  : result (ndarray Z) :=
  if negb (valid_connectivity connectivity) then Raise ValueError
  else
    let n := length (data im) in
    let idxs := range_from 0 n in
    let fuel := (27 * (n + 1))%nat in
    let m := fst (scan fuel (neighbours (shape im) connectivity) idxs
                    (foreground_map 0 (data im)) 0) in
    Ok (mk_ndarray (shape im) (map (fun i => default 0 (m !! i)) idxs)).

(** The invariant of the label store while the labeler runs on [data] and
    [K] labels have been given out: the store holds the foreground voxels,
    every label lies between 0 and [K], and every label from 1 to [K] is
    in use. *)
Record label_store_ok (data : list bool) (m : gmap Z Z) (K : Z) : Prop := {
  store_count : 0 <= K;
  store_dom : forall i,
    is_Some (m !! i) <->
    0 <= i < Z.of_nat (length data) /\ nth (Z.to_nat i) data false = true;
  store_range : forall i v, m !! i = Some v -> 0 <= v <= K;
  store_onto : forall l, 1 <= l <= K -> exists i, m !! i = Some l
}.

(** The labels given so far are kept from one store to the next. *)
Definition labels_kept (m m' : gmap Z Z) : Prop :=
  forall i v, m !! i = Some v -> v <> 0 -> m' !! i = Some v.

(** ** Sample volumes *)

(** Two voxels of a 2x2x2 grid that touch only at a corner. *)
Definition diagonal_pair : ndarray bool :=
  mk_ndarray (2, 2, 2) [true; false; false; false; false; false; false; true].

(** A 1x1x65535 line whose every other voxel is foreground: 32768 isolated
    voxels. *)
Definition isolated_line : ndarray bool :=
  mk_ndarray (1, 1, 65535)
    (flat_map (fun _ : Z => [true; false]) (range_from 0 (Z.to_nat 32767)) ++ [true]).

(** ** What the specification counts *)

(** |A ∩ B|: the number of cells where both masks are true. *)
Definition overlap_count (a b : ndarray bool) : Z :=
  Z.of_nat (length (List.filter (fun p : bool * bool => fst p && snd p)
                      (combine (data a) (data b)))).

(** The number of elements of [l] that satisfy [f]. *)
Definition count_if (f : Z -> bool) (l : list Z) : Z :=
  Z.of_nat (length (List.filter f l)).

(** Voxel [i] belongs to the cluster of label [l]. *)
Definition in_cluster (labeled : ndarray Z) (l : Z) (i : nat) : Prop :=
  (i < length (data labeled))%nat /\ nth i (data labeled) 0 = l.

(** Some voxel of the cluster [l] is true in [mask]. *)
Definition overlaps (labeled : ndarray Z) (mask : ndarray bool) (l : Z) : Prop :=
  exists i, in_cluster labeled l i /\ nth i (data mask) false = true.

(** Some voxel of the cluster [l] is true in both masks. *)
Definition overlaps_both (labeled : ndarray Z) (a b : ndarray bool) (l : Z) : Prop :=
  exists i, in_cluster labeled l i /\
            nth i (data a) false && nth i (data b) false = true.

(** The test both loops of [compute_lesion_f1_score] apply to the cluster
    [l] on arrays of one shape: [(labeled == l) & mask] has a true cell. *)
Definition cluster_hits (labeled : ndarray Z) (mask : ndarray bool) (l : Z) : bool :=
  existsb (fun b => b) (zip_and (map (fun x => x =? l) (data labeled)) (data mask)).

(** The distinct labels of the components of a label volume, and their
    number. *)
Definition cluster_labels (labeled : ndarray Z) : list Z :=
  nodup Z.eq_dec (List.filter (fun l => negb (l =? 0)) (data labeled)).

Definition num_components (labeled : ndarray Z) : Z :=
  Z.of_nat (length (cluster_labels labeled)).

(** The contract of the labeler (section 4.1): it returns on every array
    for a connectivity of 6, 18 or 26; the label volume has the shape of
    its input; labels are non-negative, zero exactly on the background, and
    fill the range from 1 to their maximum. *)
Record labeler_contract (cc : ndarray bool -> Z -> result (ndarray Z)) : Prop := {
  cc_returns : forall im c,
    well_formed im -> valid_connectivity c = true ->
    exists labeled, cc im c = Ok labeled;
  cc_shape : forall im c labeled,
    cc im c = Ok labeled ->
    shape labeled = shape im /\ length (data labeled) = length (data im);
  cc_nonneg : forall im c labeled,
    cc im c = Ok labeled -> forall l, In l (data labeled) -> 0 <= l;
  cc_foreground : forall im c labeled,
    cc im c = Ok labeled ->
    forall i, nth i (data labeled) 0 <> 0 <-> nth i (data im) false = true;
  cc_contiguous : forall im c labeled m,
    cc im c = Ok labeled -> np_max labeled = Ok m ->
    forall l, 1 <= l <= m -> In l (data labeled)
}.

(** A 1x1x5 ground truth with two lesions and a prediction that finds the
    first, misses the second and adds one of its own. *)
Definition sample_ground_truth : ndarray bool :=
  mk_ndarray (1, 1, 5) [true; false; true; false; false].

Definition sample_prediction : ndarray bool :=
  mk_ndarray (1, 1, 5) [true; false; false; false; true].

(** Masks without foreground: a 1x1x5 one and one of the shape of
    [isolated_line]. *)
Definition sample_blank : ndarray bool :=
  mk_ndarray (1, 1, 5) [false; false; false; false; false].

Definition blank_line : ndarray bool :=
  mk_ndarray (1, 1, 65535) (repeat false (Z.to_nat 65535)).

(** A 1x1x5 prediction that covers [sample_ground_truth], one inside it
    and one apart from it. *)
Definition sample_cover : ndarray bool :=
  mk_ndarray (1, 1, 5) [true; true; true; false; false].

Definition sample_inside : ndarray bool :=
  mk_ndarray (1, 1, 5) [true; false; false; false; false].

Definition sample_apart : ndarray bool :=
  mk_ndarray (1, 1, 5) [false; false; false; false; true].

(** * Properties *)

(** ** Lists and arrays *)

Lemma shape_eqb_eq (s1 s2 : shape_t) : shape_eqb s1 s2 = true <-> s1 = s2.
Proof.
  destruct s1 as [[x1 y1] z1], s2 as [[x2 y2] z2]. unfold shape_eqb.
  rewrite !andb_true_iff, !Z.eqb_eq. split.
  - intros [[-> ->] ->]. reflexivity.
  - intros H. injection H as -> -> ->. auto.
Qed.

Lemma shape_eqb_refl (s : shape_t) : shape_eqb s s = true.
Proof. apply shape_eqb_eq. reflexivity. Qed.

Lemma shape_eqb_neq (s1 s2 : shape_t) : shape_eqb s1 s2 = false <-> s1 <> s2.
Proof.
  rewrite <- shape_eqb_eq. destruct (shape_eqb s1 s2); split; congruence.
Qed.

Lemma zip_and_comm (l1 l2 : list bool) : zip_and l1 l2 = zip_and l2 l1.
Proof.
  revert l2. induction l1 as [|b1 t1 IH]; intros [|b2 t2]; simpl; try reflexivity.
  rewrite andb_comm, IH. reflexivity.
Qed.

Lemma nth_zip_and (l1 l2 : list bool) (i : nat) :
  nth i (zip_and l1 l2) false = nth i l1 false && nth i l2 false.
Proof.
  revert l2 i. induction l1 as [|b1 t1 IH]; intros [|b2 t2] [|i]; simpl;
    rewrite ?andb_false_r; try reflexivity.
  apply IH.
Qed.

Lemma existsb_nth_true (l : list bool) :
  existsb (fun b => b) l = true <-> exists i, nth i l false = true.
Proof.
  induction l as [|b t IH]; simpl.
  - split; [discriminate|]. intros [[|i] H]; discriminate.
  - rewrite orb_true_iff, IH. split.
    + intros [-> | [i H]]; [exists 0%nat; reflexivity | exists (S i); assumption].
    + intros [[|i] H]; [left | right; exists i]; assumption.
Qed.

Lemma count_true_nonneg (l : list bool) : 0 <= count_true l.
Proof. induction l as [|[] t IH]; simpl; lia. Qed.

Lemma count_true_zero (l : list bool) :
  count_true l = 0 <-> forall i, nth i l false = false.
Proof.
  induction l as [|b t IH]; simpl.
  - split; [intros _ [|i]; reflexivity | reflexivity].
  - pose proof (count_true_nonneg t). destruct b; split.
    + lia.
    + intros H0. specialize (H0 0%nat). discriminate.
    + intros H0 [|i]; [reflexivity|]. apply IH. lia.
    + intros H0. cut (count_true t = 0); [lia|]. apply IH.
      intros i. apply (H0 (S i)).
Qed.

Lemma count_true_overlap (l1 l2 : list bool) :
  count_true (zip_and l1 l2) =
  Z.of_nat (length (List.filter (fun p : bool * bool => fst p && snd p) (combine l1 l2))).
Proof.
  revert l2. induction l1 as [|b1 t1 IH]; intros [|b2 t2]; simpl; try reflexivity.
  rewrite IH. destruct (b1 && b2); simpl; lia.
Qed.

Lemma logical_and_same_shape (a b : ndarray bool) :
  shape a = shape b ->
  logical_and a b = Ok (mk_ndarray (shape a) (zip_and (data a) (data b))).
Proof.
  intros H. unfold logical_and. rewrite H, shape_eqb_refl. reflexivity.
Qed.

(** ** Voxel-wise Dice *)

(** C7: on equal shapes [compute_dice] does not depend on the order of the
    two masks, the case of two empty masks included. *)
Theorem compute_dice_symmetric (im1 im2 : ndarray bool) (empty_value : Q) :
  shape im1 = shape im2 ->
  compute_dice im1 im2 empty_value = compute_dice im2 im1 empty_value.
Proof.
  intros Hs. unfold compute_dice.
  rewrite (logical_and_same_shape im1 im2 Hs).
  rewrite (logical_and_same_shape im2 im1 (eq_sym Hs)).
  rewrite Hs, (Z.add_comm (np_sum im2) (np_sum im1)). simpl.
  unfold np_sum. simpl. rewrite (zip_and_comm (data im2) (data im1)).
  reflexivity.
Qed.

(** C8: [compute_dice] raises, and then a [ValueError], exactly when the
    shapes differ; on equal shapes it returns [empty_value] when both
    masks sum to zero and 2·|A∩B| / (|A|+|B|) otherwise. *)
Theorem compute_dice_cases (im1 im2 : ndarray bool) (empty_value : Q) :
  (forall e, compute_dice im1 im2 empty_value = Raise e <->
             shape im1 <> shape im2 /\ e = ValueError) /\
  (shape im1 = shape im2 ->
   (np_sum im1 = 0 /\ np_sum im2 = 0 ->
    compute_dice im1 im2 empty_value = Ok empty_value) /\
   (~ (np_sum im1 = 0 /\ np_sum im2 = 0) ->
    compute_dice im1 im2 empty_value =
    Ok (2 * inject_Z (overlap_count im1 im2) /
        inject_Z (np_sum im1 + np_sum im2))%Q)).
Proof.
  assert (Hsum : np_sum im1 + np_sum im2 = 0 <-> np_sum im1 = 0 /\ np_sum im2 = 0).
  { pose proof (count_true_nonneg (data im1)).
    pose proof (count_true_nonneg (data im2)). unfold np_sum. lia. }
  unfold compute_dice. destruct (shape_eqb (shape im1) (shape im2)) eqn:Hs; simpl.
  - apply shape_eqb_eq in Hs. rewrite (logical_and_same_shape _ _ Hs). simpl.
    destruct (Z.eqb_spec (np_sum im1 + np_sum im2) 0) as [H0|H0].
    + split.
      * intros e. split; [discriminate | intros [Hne _]; contradiction].
      * intros _. split; [reflexivity|]. intros Hn. apply Hsum in H0. contradiction.
    + split.
      * intros e. split; [discriminate | intros [Hne _]; contradiction].
      * intros _. split; [intros Hz; apply Hsum in Hz; contradiction|].
        intros _. unfold overlap_count, np_sum at 1. simpl.
        rewrite count_true_overlap. reflexivity.
  - apply shape_eqb_neq in Hs. split.
    + intros e. split.
      * intros H. injection H as <-. auto.
      * intros [_ ->]. reflexivity.
    + intros He. contradiction.
Qed.

(** ** Absolute volume difference *)

(** C5, as the code has it: on shapes that differ
    [compute_absolute_volume_difference] issues one warning and returns
    |sum(A)·voxel_size − sum(B)·voxel_size|; it raises nothing. *)
Theorem volume_difference_warns_and_continues (im1 im2 : ndarray bool) (voxel_size : Q) :
  shape im1 <> shape im2 ->
  compute_absolute_volume_difference im1 im2 voxel_size =
  ([ShapeMismatchWarning],
   Ok (Qabs (inject_Z (np_sum im1) * voxel_size - inject_Z (np_sum im2) * voxel_size))).
Proof.
  intros Hs. apply shape_eqb_neq in Hs. unfold compute_absolute_volume_difference.
  rewrite Hs. reflexivity.
Qed.

(** C5 as stated fails: two masks of shapes 1x1x1 and 1x1x2 give a result,
    not an error. *)
Lemma volume_difference_no_shape_error :
  shape (mk_ndarray (1, 1, 1) [true]) <> shape (mk_ndarray (1, 1, 2) [false; false]) /\
  compute_absolute_volume_difference
    (mk_ndarray (1, 1, 1) [true]) (mk_ndarray (1, 1, 2) [false; false]) 1 =
  ([ShapeMismatchWarning], Ok 1%Q) /\
  forall e, snd (compute_absolute_volume_difference
                   (mk_ndarray (1, 1, 1) [true]) (mk_ndarray (1, 1, 2) [false; false]) 1)
            <> Raise e.
Proof.
  split; [discriminate|]. split; [reflexivity|]. intros e. discriminate.
Qed.

(** ** The cast to int16 *)

Lemma astype_int16_range (x : Z) : -32768 <= astype_int16 x <= 32767.
Proof. unfold astype_int16. pose proof (Z.mod_pos_bound (x + 32768) 65536). lia. Qed.

Lemma astype_int16_small (x : Z) : -32768 <= x <= 32767 -> astype_int16 x = x.
Proof. intros H. unfold astype_int16. rewrite Z.mod_small; lia. Qed.

Lemma astype_int16_congruent (x : Z) : (astype_int16 x - x) mod 65536 = 0.
Proof.
  unfold astype_int16.
  pose proof (Z.div_mod (x + 32768) 65536 ltac:(lia)) as Hdm.
  replace ((x + 32768) mod 65536 - 32768 - x)
    with (- ((x + 32768) / 65536) * 65536) by lia.
  apply Z.mod_mul. lia.
Qed.

(** ** Ranges, maxima and counts *)

Lemma range_from_In (n : nat) (lo l : Z) :
  In l (range_from lo n) <-> lo <= l < lo + Z.of_nat n.
Proof.
  revert lo. induction n as [|n IH]; intros lo; simpl range_from.
  - simpl. lia.
  - simpl In. rewrite IH. lia.
Qed.

Lemma range_from_NoDup (n : nat) (lo : Z) : List.NoDup (range_from lo n).
Proof.
  revert lo. induction n as [|n IH]; intros lo; simpl; constructor.
  - rewrite range_from_In. lia.
  - apply IH.
Qed.

Lemma range_from_length (n : nat) (lo : Z) : length (range_from lo n) = n.
Proof. revert lo. induction n as [|n IH]; intros lo; simpl; auto. Qed.

Lemma py_range_In (lo hi l : Z) : In l (py_range lo hi) <-> lo <= l < hi.
Proof. unfold py_range. rewrite range_from_In. lia. Qed.

Lemma py_range_length (lo hi : Z) : lo <= hi -> Z.of_nat (length (py_range lo hi)) = hi - lo.
Proof. intros H. unfold py_range. rewrite range_from_length. lia. Qed.

Lemma py_range_empty (lo hi : Z) : hi <= lo -> py_range lo hi = [].
Proof.
  intros H. unfold py_range. replace (Z.to_nat (hi - lo)) with 0%nat by lia. reflexivity.
Qed.

Lemma fold_left_max_ge (l : list Z) (x : Z) : x <= fold_left Z.max l x.
Proof.
  revert x. induction l as [|y t IH]; intros x; simpl; [lia|].
  specialize (IH (Z.max x y)). lia.
Qed.

Lemma fold_left_max_bound (l : list Z) (x y : Z) : In y l -> y <= fold_left Z.max l x.
Proof.
  revert x. induction l as [|z t IH]; intros x; simpl; [contradiction|].
  intros [-> | Hin].
  - pose proof (fold_left_max_ge t (Z.max x y)). lia.
  - apply IH. assumption.
Qed.

Lemma fold_left_max_In (l : list Z) (x : Z) :
  fold_left Z.max l x = x \/ In (fold_left Z.max l x) l.
Proof.
  revert x. induction l as [|y t IH]; intros x; simpl; [left; reflexivity|].
  destruct (IH (Z.max x y)) as [H | H].
  - rewrite H. destruct (Z.max_spec x y) as [[_ ->] | [_ ->]]; auto.
  - auto.
Qed.

Lemma np_max_spec (a : ndarray Z) (m : Z) :
  np_max a = Ok m -> In m (data a) /\ forall x, In x (data a) -> x <= m.
Proof.
  unfold np_max. destruct (data a) as [|x t]; [discriminate|].
  intros H. injection H as <-. split.
  - destruct (fold_left_max_In t x) as [-> | H]; [left; reflexivity | right; exact H].
  - intros y [<- | Hy]; [apply fold_left_max_ge | apply fold_left_max_bound; exact Hy].
Qed.

Lemma np_max_returns (a : ndarray Z) : data a <> [] -> exists m, np_max a = Ok m.
Proof.
  unfold np_max. destruct (data a) as [|x t]; [congruence|]. intros _. eauto.
Qed.

Lemma np_max_nonempty (a : ndarray Z) (m : Z) : np_max a = Ok m -> data a <> [].
Proof. unfold np_max. destruct (data a); [discriminate | discriminate]. Qed.


Lemma count_if_cons (f : Z -> bool) (x : Z) (l : list Z) :
  count_if f (x :: l) = (if f x then 1 else 0) + count_if f l.
Proof. unfold count_if. simpl. destruct (f x); simpl; lia. Qed.

Lemma count_if_partition (f : Z -> bool) (l : list Z) :
  count_if f l + count_if (fun x => negb (f x)) l = Z.of_nat (length l).
Proof.
  induction l as [|x t IH]; [reflexivity|].
  rewrite !count_if_cons. simpl length. destruct (f x); simpl; lia.
Qed.

Lemma count_if_all (f : Z -> bool) (l : list Z) :
  (forall x, In x l -> f x = true) -> count_if f l = Z.of_nat (length l).
Proof.
  induction l as [|x t IH]; intros H; [reflexivity|].
  rewrite count_if_cons, (H x (or_introl eq_refl)), IH.
  - simpl length. lia.
  - intros y Hy. apply H. right. exact Hy.
Qed.

Lemma count_if_none (f : Z -> bool) (l : list Z) :
  (forall x, In x l -> f x = false) -> count_if f l = 0.
Proof.
  induction l as [|x t IH]; intros H; [reflexivity|].
  rewrite count_if_cons, (H x (or_introl eq_refl)), IH; [reflexivity|].
  intros y Hy. apply H. right. exact Hy.
Qed.


(** ** The overlap test *)

Lemma nth_map_eqb (ls : list Z) (l : Z) (i : nat) :
  nth i (map (fun x => x =? l) ls) false = true <->
  (i < length ls)%nat /\ nth i ls 0 = l.
Proof.
  revert i. induction ls as [|x t IH]; intros [|i]; simpl.
  - split; [discriminate | lia].
  - split; [discriminate | lia].
  - rewrite Z.eqb_eq. split; [intros ->; split; [lia | reflexivity] | tauto].
  - rewrite IH. split; intros [H1 H2]; split; auto; lia.
Qed.

Lemma cluster_hits_overlaps (labeled : ndarray Z) (mask : ndarray bool) (l : Z) :
  cluster_hits labeled mask l = true <-> overlaps labeled mask l.
Proof.
  unfold cluster_hits, overlaps, in_cluster. rewrite existsb_nth_true.
  split; intros [i H]; exists i; rewrite nth_zip_and, andb_true_iff, nth_map_eqb in *;
    exact H.
Qed.

Lemma cluster_hits_overlaps_both (labeled : ndarray Z) (a b : ndarray bool) (l : Z) :
  cluster_hits labeled (mk_ndarray (shape a) (zip_and (data a) (data b))) l = true <->
  overlaps_both labeled a b l.
Proof.
  rewrite cluster_hits_overlaps. unfold overlaps, overlaps_both. simpl.
  split; intros [i [H1 H2]]; exists i; rewrite nth_zip_and in *; auto.
Qed.

(** ** The two loops *)

Lemma ground_truth_loop_total (labels : list Z) (lgt : ndarray Z) (inter : ndarray bool)
    (tp fn tp' fn' : Z) :
  ground_truth_loop labels lgt inter tp fn = Ok (tp', fn') ->
  tp' + fn' = tp + fn + Z.of_nat (length labels) /\ tp <= tp' /\ fn <= fn'.
Proof.
  revert tp fn. induction labels as [|l rest IH]; intros tp fn; simpl.
  - intros H. injection H as <- <-. lia.
  - destruct (logical_and (np_eq lgt l) inter) as [ov|e]; simpl; [|discriminate].
    destruct (np_any ov); intros H; apply IH in H; lia.
Qed.

Lemma prediction_loop_monotone (labels : list Z) (lpred : ndarray Z) (gt : ndarray bool)
    (fp fp' : Z) :
  prediction_loop labels lpred gt fp = Ok fp' ->
  fp <= fp' <= fp + Z.of_nat (length labels).
Proof.
  revert fp. induction labels as [|l rest IH]; intros fp; simpl.
  - intros H. injection H as <-. lia.
  - destruct (logical_and (np_eq lpred l) gt) as [ov|e]; simpl; [|discriminate].
    destruct (negb (np_any ov)); intros H; apply IH in H; lia.
Qed.

Lemma loop_test (labeled : ndarray Z) (mask : ndarray bool) (l : Z) :
  shape labeled = shape mask ->
  exists ov, logical_and (np_eq labeled l) mask = Ok ov /\
             np_any ov = cluster_hits labeled mask l.
Proof.
  intros Hs. rewrite logical_and_same_shape by exact Hs.
  eexists. split; reflexivity.
Qed.

Lemma ground_truth_loop_counts (labels : list Z) (lgt : ndarray Z) (inter : ndarray bool)
    (tp fn : Z) :
  shape lgt = shape inter ->
  ground_truth_loop labels lgt inter tp fn =
  Ok (tp + count_if (cluster_hits lgt inter) labels,
      fn + count_if (fun l => negb (cluster_hits lgt inter l)) labels).
Proof.
  intros Hs. revert tp fn. induction labels as [|l rest IH]; intros tp fn.
  - simpl. unfold count_if. simpl. rewrite !Z.add_0_r. reflexivity.
  - cbn [ground_truth_loop]. destruct (loop_test lgt inter l Hs) as [ov [Hov Hany]].
    rewrite Hov. cbn [bind]. rewrite Hany.
    rewrite !count_if_cons.
    destruct (cluster_hits lgt inter l); simpl; rewrite IH; f_equal; f_equal; lia.
Qed.

Lemma prediction_loop_counts (labels : list Z) (lpred : ndarray Z) (gt : ndarray bool)
    (fp : Z) :
  shape lpred = shape gt ->
  prediction_loop labels lpred gt fp =
  Ok (fp + count_if (fun l => negb (cluster_hits lpred gt l)) labels).
Proof.
  intros Hs. revert fp. induction labels as [|l rest IH]; intros fp.
  - simpl. unfold count_if. simpl. rewrite Z.add_0_r. reflexivity.
  - cbn [prediction_loop]. destruct (loop_test lpred gt l Hs) as [ov [Hov Hany]].
    rewrite Hov. cbn [bind]. rewrite Hany.
    rewrite count_if_cons.
    destruct (cluster_hits lpred gt l); simpl; rewrite IH; f_equal; lia.
Qed.

(** ** Lesion-wise counting under the labeler's contract *)

Section LesionWise.

Variable cc : ndarray bool -> Z -> result (ndarray Z).
Hypothesis Hcc : labeler_contract cc.

(** The run of [lesion_wise_counts] that produced given counts. *)
Lemma lesion_wise_counts_run (gt pred : ndarray bool) (c tp fp fn : Z) :
  lesion_wise_counts cc gt pred c = Ok (tp, fp, fn) ->
  exists inter lgt lpred kgt kpred,
    logical_and gt pred = Ok inter /\
    cc gt c = Ok lgt /\ np_max lgt = Ok kgt /\
    cc pred c = Ok lpred /\ np_max lpred = Ok kpred /\
    ground_truth_loop (py_range 1 (kgt + 1)) lgt inter 0 0 = Ok (tp, fn) /\
    prediction_loop (py_range 1 (kpred + 1)) lpred gt 0 = Ok fp.
Proof.
  unfold lesion_wise_counts.
  destruct (logical_and gt pred) as [inter|] eqn:Hi; simpl; [|discriminate].
  destruct (cc gt c) as [lgt|] eqn:Hg; simpl; [|discriminate].
  destruct (np_max lgt) as [kgt|] eqn:Hkg; simpl; [|discriminate].
  destruct (if kgt >? 0 then _ else _) as [[tp0 fn0]|] eqn:Hloop; simpl; [|discriminate].
  destruct (cc pred c) as [lpred|] eqn:Hp; simpl; [|discriminate].
  destruct (np_max lpred) as [kpred|] eqn:Hkp; simpl; [|discriminate].
  destruct (if kpred >? 0 then _ else _) as [fp0|] eqn:Hloop'; simpl; [|discriminate].
  intros H. injection H as -> -> ->.
  exists inter, lgt, lpred, kgt, kpred.
  do 5 (split; [first [reflexivity | assumption]|]). split.
  - revert Hloop. destruct (Z.gtb_spec kgt 0); intros Hloop; [exact Hloop|].
    rewrite py_range_empty by lia. exact Hloop.
  - revert Hloop'. destruct (Z.gtb_spec kpred 0); intros Hloop'; [exact Hloop'|].
    rewrite py_range_empty by lia. exact Hloop'.
Qed.

Lemma labeled_max_nonneg (im : ndarray bool) (c : Z) (labeled : ndarray Z) (k : Z) :
  cc im c = Ok labeled -> np_max labeled = Ok k -> 0 <= k.
Proof.
  intros Hl Hk. apply np_max_spec in Hk as [Hin _].
  exact (cc_nonneg cc Hcc im c labeled Hl k Hin).
Qed.

(** Every component is a label between 1 and the maximum, and conversely. *)
Lemma cluster_labels_range (im : ndarray bool) (c : Z) (labeled : ndarray Z) (k l : Z) :
  cc im c = Ok labeled -> np_max labeled = Ok k ->
  In l (cluster_labels labeled) <-> In l (py_range 1 (k + 1)).
Proof.
  intros Hl Hk. unfold cluster_labels.
  rewrite nodup_In, filter_In, negb_true_iff, Z.eqb_neq, py_range_In.
  pose proof (np_max_spec labeled k Hk) as [_ Hmax]. split.
  - intros [Hin Hne]. pose proof (cc_nonneg cc Hcc im c labeled Hl l Hin).
    specialize (Hmax l Hin). lia.
  - intros Hr. split; [|lia].
    apply (cc_contiguous cc Hcc im c labeled k Hl Hk). lia.
Qed.

(** The number of components is the maximum label. *)
Lemma num_components_max (im : ndarray bool) (c : Z) (labeled : ndarray Z) (k : Z) :
  cc im c = Ok labeled -> np_max labeled = Ok k -> num_components labeled = k.
Proof.
  intros Hl Hk. unfold num_components.
  pose proof (labeled_max_nonneg im c labeled k Hl Hk) as H0.
  transitivity (Z.of_nat (length (py_range 1 (k + 1))));
    [|rewrite py_range_length by lia; lia].
  f_equal. apply Permutation.Permutation_length.
  apply Permutation.NoDup_Permutation.
  - apply NoDup_nodup.
  - apply range_from_NoDup.
  - intros l. apply (cluster_labels_range im c labeled k l Hl Hk).
Qed.

Lemma labeled_shape_length (im : ndarray bool) (c : Z) (labeled : ndarray Z) :
  cc im c = Ok labeled ->
  shape labeled = shape im /\ length (data labeled) = length (data im).
Proof. apply (cc_shape cc Hcc). Qed.

(** On equal shapes the counts are the numbers of clusters that pass, or
    fail, the overlap test. *)
Lemma lesion_wise_counts_eq (gt pred : ndarray bool) (c : Z) (lgt lpred : ndarray Z)
    (kgt kpred : Z) :
  shape gt = shape pred ->
  cc gt c = Ok lgt -> np_max lgt = Ok kgt ->
  cc pred c = Ok lpred -> np_max lpred = Ok kpred ->
  let inter := mk_ndarray (shape gt) (zip_and (data gt) (data pred)) in
  lesion_wise_counts cc gt pred c =
  Ok (count_if (cluster_hits lgt inter) (py_range 1 (kgt + 1)),
      count_if (fun l => negb (cluster_hits lpred gt l)) (py_range 1 (kpred + 1)),
      count_if (fun l => negb (cluster_hits lgt inter l)) (py_range 1 (kgt + 1))).
Proof.
  intros Hs Hg Hkg Hp Hkp inter.
  destruct (labeled_shape_length gt c lgt Hg) as [Hsg _].
  destruct (labeled_shape_length pred c lpred Hp) as [Hsp _].
  assert (Hgl : forall labels,
    ground_truth_loop labels lgt inter 0 0 =
    Ok (count_if (cluster_hits lgt inter) labels,
        count_if (fun l => negb (cluster_hits lgt inter l)) labels)).
  { intros labels. rewrite ground_truth_loop_counts by exact Hsg. reflexivity. }
  assert (Hpl : forall labels,
    prediction_loop labels lpred gt 0 =
    Ok (count_if (fun l => negb (cluster_hits lpred gt l)) labels)).
  { intros labels. rewrite prediction_loop_counts by congruence. reflexivity. }
  unfold lesion_wise_counts.
  rewrite (logical_and_same_shape gt pred Hs). fold inter. cbn [bind].
  rewrite Hg. cbn [bind]. rewrite Hkg. cbn [bind].
  replace (if kgt >? 0 then _ else _)
    with (ground_truth_loop (py_range 1 (kgt + 1)) lgt inter 0 0).
  2:{ destruct (Z.gtb_spec kgt 0); [reflexivity|].
      rewrite py_range_empty by lia. reflexivity. }
  rewrite Hgl. cbn [bind]. rewrite Hp. cbn [bind]. rewrite Hkp. cbn [bind].
  replace (if kpred >? 0 then _ else _)
    with (prediction_loop (py_range 1 (kpred + 1)) lpred gt 0).
  2:{ destruct (Z.gtb_spec kpred 0); [reflexivity|].
      rewrite py_range_empty by lia. reflexivity. }
  rewrite Hpl. reflexivity.
Qed.

(** The counting part returns on arrays of one non-zero size and shape. *)
Lemma lesion_wise_counts_returns (gt pred : ndarray bool) (c : Z) :
  well_formed gt -> well_formed pred -> shape gt = shape pred ->
  data gt <> [] -> valid_connectivity c = true ->
  exists tp fp fn, lesion_wise_counts cc gt pred c = Ok (tp, fp, fn).
Proof.
  intros Wg Wp Hs Hne Hc.
  destruct (cc_returns cc Hcc gt c Wg Hc) as [lgt Hg].
  destruct (cc_returns cc Hcc pred c Wp Hc) as [lpred Hp].
  destruct (labeled_shape_length gt c lgt Hg) as [_ Hlg].
  destruct (labeled_shape_length pred c lpred Hp) as [_ Hlp].
  assert (Hlen : length (data pred) = length (data gt)).
  { unfold well_formed in Wg, Wp. rewrite Hs in Wg.
    destruct (shape pred) as [[x y] z]. lia. }
  destruct (np_max_returns lgt) as [kgt Hkg].
  { intros E. rewrite E in Hlg. destruct (data gt); [congruence | discriminate]. }
  destruct (np_max_returns lpred) as [kpred Hkp].
  { intros E. rewrite E, Hlen in Hlp. destruct (data gt); [congruence | discriminate]. }
  do 3 eexists. apply (lesion_wise_counts_eq gt pred c lgt lpred kgt kpred); assumption.
Qed.

(** A voxel with a non-zero label lies inside the array. *)
Lemma nonzero_label_in_range (labels : list Z) (i : nat) :
  nth i labels 0 <> 0 -> (i < length labels)%nat.
Proof.
  intros H. destruct (Nat.lt_ge_cases i (length labels)) as [Hlt|Hge]; [exact Hlt|].
  rewrite nth_overflow in H by exact Hge. congruence.
Qed.

(** A label volume whose maximum is zero labels a mask with no foreground. *)
Lemma max_zero_no_foreground (im : ndarray bool) (c : Z) (labeled : ndarray Z) :
  cc im c = Ok labeled -> np_max labeled = Ok 0 ->
  forall i, nth i (data im) false = false.
Proof.
  intros Hl Hk i. destruct (nth i (data im) false) eqn:E; [|reflexivity].
  apply (cc_foreground cc Hcc im c labeled Hl) in E.
  pose proof (nonzero_label_in_range _ _ E) as Hlt.
  pose proof (nth_In (data labeled) 0 Hlt) as Hin.
  pose proof (cc_nonneg cc Hcc im c labeled Hl _ Hin).
  apply np_max_spec in Hk as [_ Hmax]. specialize (Hmax _ Hin). lia.
Qed.

(** A mask with no foreground has maximum label zero under any labeling. *)
Lemma no_foreground_max_zero (im : ndarray bool) (c : Z) (labeled : ndarray Z) (k : Z) :
  cc im c = Ok labeled -> np_max labeled = Ok k ->
  (forall i, nth i (data im) false = false) -> k = 0.
Proof.
  intros Hl Hk Hbg. apply np_max_spec in Hk as [Hin _].
  apply In_nth with (d := 0) in Hin as [i [_ Hi]].
  destruct (Z.eq_dec k 0) as [E|E]; [exact E|].
  rewrite <- Hi in E. apply (cc_foreground cc Hcc im c labeled Hl) in E.
  rewrite Hbg in E. discriminate.
Qed.

(** With no foreground and at least one voxel, the cluster count under the
    default connectivity is zero. *)
Lemma no_foreground_no_clusters (im : ndarray bool) :
  well_formed im -> data im <> [] ->
  (forall i, nth i (data im) false = false) ->
  compute_number_of_clusters cc im 26 = Ok 0.
Proof.
  intros W Hne Hbg. unfold compute_number_of_clusters.
  destruct (cc_returns cc Hcc im 26 W eq_refl) as [l26 Hl]. rewrite Hl. cbn [bind].
  destruct (labeled_shape_length im 26 l26 Hl) as [_ Hlen].
  destruct (np_max_returns l26) as [k Hk].
  { intros E. rewrite E in Hlen. destruct (data im); [congruence | discriminate]. }
  rewrite Hk. cbn [bind].
  rewrite (no_foreground_max_zero im 26 l26 k Hl Hk Hbg). reflexivity.
Qed.

(** Counts that sum to zero come from a ground truth without foreground. *)
Lemma zero_counts_no_clusters (gt pred : ndarray bool) (c tp fp fn : Z) :
  well_formed gt ->
  lesion_wise_counts cc gt pred c = Ok (tp, fp, fn) ->
  0 <= tp /\ 0 <= fp /\ 0 <= fn /\
  (tp + fp + fn = 0 -> compute_number_of_clusters cc gt 26 = Ok 0).
Proof.
  intros W Hrun.
  destruct (lesion_wise_counts_run gt pred c tp fp fn Hrun)
    as (inter & lgt & lpred & kgt & kpred & _ & Hg & Hkg & _ & _ & Hgl & Hpl).
  apply ground_truth_loop_total in Hgl. apply prediction_loop_monotone in Hpl.
  pose proof (labeled_max_nonneg gt c lgt kgt Hg Hkg) as H0.
  rewrite py_range_length in Hgl by lia.
  repeat (split; [lia|]). intros Hz.
  assert (kgt = 0) by lia. subst kgt.
  apply no_foreground_no_clusters; [exact W| |].
  - apply np_max_nonempty in Hkg.
    destruct (labeled_shape_length gt c lgt Hg) as [_ Hlen].
    intros E. rewrite E in Hlen. destruct (data lgt); [congruence | discriminate].
  - apply (max_zero_no_foreground gt c lgt Hg Hkg).
Qed.

Lemma f1_denominator_nonzero (tp fp fn : Z) :
  0 <= tp -> 0 <= fp -> 0 <= fn -> tp + fp + fn <> 0 ->
  Qeq_bool (inject_Z tp + inject_Z (fp + fn) / 2)%Q 0 = false.
Proof.
  intros Htp Hfp Hfn Hs.
  destruct (Qeq_bool _ 0) eqn:E; [|reflexivity].
  apply Qeq_bool_eq in E. unfold Qeq in E. simpl in E. lia.
Qed.

(** The value of the final conditional on counts the loops produced. *)
Lemma f1_from_counts_value (gt pred : ndarray bool) (empty_value : Q) (c tp fp fn : Z) :
  well_formed gt ->
  lesion_wise_counts cc gt pred c = Ok (tp, fp, fn) ->
  f1_from_counts cc gt empty_value tp fp fn =
  Ok (if tp + fp + fn =? 0 then empty_value
      else (inject_Z tp / (inject_Z tp + inject_Z (fp + fn) / 2))%Q).
Proof.
  intros W Hrun.
  destruct (zero_counts_no_clusters gt pred c tp fp fn W Hrun)
    as (Htp & Hfp & Hfn & Hzero).
  unfold f1_from_counts. destruct (Z.eqb_spec (tp + fp + fn) 0) as [Hz|Hz].
  - rewrite (Hzero Hz). reflexivity.
  - unfold py_truediv. rewrite f1_denominator_nonzero by assumption. reflexivity.
Qed.

(** ** The stated properties of the lesion-wise metrics *)

(** C9: [compute_number_of_clusters] returns the maximum label, which is
    the number of components, cast to int16: the count itself up to 32767,
    and above it a value of the int16 range congruent to the count modulo
    2^16, different from it, and negative for counts below 65536. *)
Theorem compute_number_of_clusters_int16 (im : ndarray bool) (c : Z)
    (labeled : ndarray Z) (m : Z) :
  cc im c = Ok labeled -> np_max labeled = Ok m ->
  compute_number_of_clusters cc im c = Ok (astype_int16 m) /\
  m = num_components labeled /\
  (num_components labeled <= 32767 -> astype_int16 m = num_components labeled) /\
  (32767 < num_components labeled ->
   astype_int16 m <> num_components labeled /\
   (astype_int16 m - num_components labeled) mod 65536 = 0 /\
   -32768 <= astype_int16 m <= 32767) /\
  (32767 < num_components labeled < 65536 -> astype_int16 m < 0).
Proof.
  intros Hl Hk.
  pose proof (num_components_max im c labeled m Hl Hk) as Hn.
  pose proof (labeled_max_nonneg im c labeled m Hl Hk) as H0.
  rewrite Hn. split; [|split; [reflexivity|split; [|split]]].
  - unfold compute_number_of_clusters. rewrite Hl. cbn [bind]. rewrite Hk. reflexivity.
  - intros Hs. apply astype_int16_small. lia.
  - intros Hb. pose proof (astype_int16_range m).
    split; [lia|]. split; [apply astype_int16_congruent | assumption].
  - intros Hb. unfold astype_int16.
    replace (m + 32768) with ((m - 32768) + 1 * 65536) by lia.
    rewrite Z.mod_add by lia. rewrite Z.mod_small by lia. lia.
Qed.

(** C1: on equal shapes, every label from 1 to the maximum of the
    ground-truth labeling is a component of the ground truth; it is counted
    in [tp] exactly when one of its voxels is true in both masks and in
    [fn] otherwise; a component of the prediction is counted in [fp]
    exactly when none of its voxels is true in the ground truth. *)
Theorem lesion_wise_classification (gt pred : ndarray bool) (c tp fp fn : Z) :
  shape gt = shape pred ->
  lesion_wise_counts cc gt pred c = Ok (tp, fp, fn) ->
  exists lgt lpred kgt kpred,
    cc gt c = Ok lgt /\ np_max lgt = Ok kgt /\
    cc pred c = Ok lpred /\ np_max lpred = Ok kpred /\
    (forall l, In l (py_range 1 (kgt + 1)) <-> In l (cluster_labels lgt)) /\
    (forall l, In l (py_range 1 (kpred + 1)) <-> In l (cluster_labels lpred)) /\
    exists is_tp is_fp : Z -> bool,
      (forall l, is_tp l = true <-> overlaps_both lgt gt pred l) /\
      (forall l, is_fp l = true <-> ~ overlaps lpred gt l) /\
      tp = count_if is_tp (py_range 1 (kgt + 1)) /\
      fn = count_if (fun l => negb (is_tp l)) (py_range 1 (kgt + 1)) /\
      fp = count_if is_fp (py_range 1 (kpred + 1)).
Proof.
  intros Hs Hrun.
  destruct (lesion_wise_counts_run gt pred c tp fp fn Hrun)
    as (inter & lgt & lpred & kgt & kpred & _ & Hg & Hkg & Hp & Hkp & _).
  pose proof (lesion_wise_counts_eq gt pred c lgt lpred kgt kpred Hs Hg Hkg Hp Hkp) as E.
  cbv zeta in E. rewrite Hrun in E. injection E as -> -> ->.
  exists lgt, lpred, kgt, kpred. do 4 (split; [assumption|]).
  split; [intros l; symmetry; apply (cluster_labels_range gt c lgt kgt l Hg Hkg)|].
  split; [intros l; symmetry; apply (cluster_labels_range pred c lpred kpred l Hp Hkp)|].
  exists (cluster_hits lgt (mk_ndarray (shape gt) (zip_and (data gt) (data pred)))),
         (fun l => negb (cluster_hits lpred gt l)).
  split; [intros l; apply cluster_hits_overlaps_both|].
  split; [|auto].
  intros l. rewrite negb_true_iff, <- not_true_iff_false, cluster_hits_overlaps. reflexivity.
Qed.

(** C2: when the counts sum to zero [compute_lesion_f1_score] returns
    [empty_value], and when the sum is positive it returns
    tp / (tp + (fp + fn) / 2). *)
Theorem lesion_f1_value (gt pred : ndarray bool) (empty_value : Q) (c tp fp fn : Z) :
  well_formed gt ->
  lesion_wise_counts cc gt pred c = Ok (tp, fp, fn) ->
  (tp + fp + fn = 0 ->
   compute_lesion_f1_score cc gt pred empty_value c = Ok empty_value) /\
  (tp + fp + fn > 0 ->
   compute_lesion_f1_score cc gt pred empty_value c =
   Ok (inject_Z tp / (inject_Z tp + inject_Z (fp + fn) / 2))%Q).
Proof.
  intros W Hrun. unfold compute_lesion_f1_score. rewrite Hrun. cbn [bind].
  rewrite (f1_from_counts_value gt pred empty_value c tp fp fn W Hrun).
  split; intros Hsum.
  - rewrite Hsum. reflexivity.
  - destruct (Z.eqb_spec (tp + fp + fn) 0); [lia | reflexivity].
Qed.


(** C4, as the code has it: on equal shapes [tp + fn] is the number of
    components of the ground truth, every component of the prediction is
    either counted in [fp] or overlaps the ground truth, so the overlapping
    ones and [fp] add up to the number of components of the prediction;
    these numbers are the values [compute_number_of_clusters] returns as
    long as they do not exceed 32767. *)
Theorem lesion_wise_counts_exhaustive (gt pred : ndarray bool) (c tp fp fn : Z) :
  shape gt = shape pred ->
  lesion_wise_counts cc gt pred c = Ok (tp, fp, fn) ->
  exists lgt lpred kpred,
    cc gt c = Ok lgt /\ cc pred c = Ok lpred /\ np_max lpred = Ok kpred /\
    tp + fn = num_components lgt /\
    (num_components lgt <= 32767 ->
     compute_number_of_clusters cc gt c = Ok (tp + fn)) /\
    exists is_fp : Z -> bool,
      (forall l, is_fp l = true <-> ~ overlaps lpred gt l) /\
      fp = count_if is_fp (py_range 1 (kpred + 1)) /\
      count_if (fun l => negb (is_fp l)) (py_range 1 (kpred + 1)) + fp =
      num_components lpred /\
      (num_components lpred <= 32767 ->
       compute_number_of_clusters cc pred c =
       Ok (count_if (fun l => negb (is_fp l)) (py_range 1 (kpred + 1)) + fp)).
Proof.
  intros Hs Hrun.
  destruct (lesion_wise_counts_run gt pred c tp fp fn Hrun)
    as (inter & lgt & lpred & kgt & kpred & _ & Hg & Hkg & Hp & Hkp & Hgl & _).
  pose proof (lesion_wise_counts_eq gt pred c lgt lpred kgt kpred Hs Hg Hkg Hp Hkp) as E.
  cbv zeta in E. rewrite Hrun in E. injection E as Etp Efp Efn.
  pose proof (labeled_max_nonneg gt c lgt kgt Hg Hkg) as H0g.
  pose proof (labeled_max_nonneg pred c lpred kpred Hp Hkp) as H0p.
  pose proof (num_components_max gt c lgt kgt Hg Hkg) as Hng.
  pose proof (num_components_max pred c lpred kpred Hp Hkp) as Hnp.
  apply ground_truth_loop_total in Hgl. rewrite py_range_length in Hgl by lia.
  assert (Hclusters : forall im labeled k,
            cc im c = Ok labeled -> np_max labeled = Ok k -> 0 <= k <= 32767 ->
            compute_number_of_clusters cc im c = Ok k).
  { intros im labeled k Hl Hk Hb. unfold compute_number_of_clusters.
    rewrite Hl. cbn [bind]. rewrite Hk. cbn [bind].
    rewrite astype_int16_small by lia. reflexivity. }
  exists lgt, lpred, kpred. do 3 (split; [assumption|]).
  split; [lia|]. split.
  - intros Hb. replace (tp + fn) with kgt by lia.
    apply (Hclusters gt lgt kgt Hg Hkg). lia.
  - exists (fun l => negb (cluster_hits lpred gt l)).
    pose proof (count_if_partition (fun l => negb (cluster_hits lpred gt l))
                  (py_range 1 (kpred + 1))) as Hpart.
    rewrite py_range_length in Hpart by lia.
    split; [|split; [exact Efp|split]].
    + intros l.
      rewrite negb_true_iff, <- not_true_iff_false, cluster_hits_overlaps. reflexivity.
    + rewrite Efp. lia.
    + intros Hb. rewrite Efp.
      replace (_ + _) with kpred by lia.
      apply (Hclusters pred lpred kpred Hp Hkp). lia.
Qed.

(** C6: a mask with a true voxel, compared with itself under a
    connectivity of 6, 18 or 26, has [tp] equal to its number of components
    and no [fp] or [fn], and its lesion-wise F1 score is 1. *)
Theorem lesion_f1_self (a : ndarray bool) (empty_value : Q) (c : Z) :
  well_formed a -> (exists i, nth i (data a) false = true) ->
  valid_connectivity c = true ->
  exists la s,
    cc a c = Ok la /\ 0 < num_components la /\
    lesion_wise_counts cc a a c = Ok (num_components la, 0, 0) /\
    compute_lesion_f1_score cc a a empty_value c = Ok s /\ (s == 1)%Q.
Proof.
  intros W [i Hi] Hc.
  destruct (cc_returns cc Hcc a c W Hc) as [la Hl].
  destruct (labeled_shape_length a c la Hl) as [_ Hlen].
  pose proof (proj2 (cc_foreground cc Hcc a c la Hl i) Hi) as Hli.
  pose proof (nonzero_label_in_range _ _ Hli) as Hlt.
  destruct (np_max_returns la) as [k Hk].
  { intros E. rewrite E in Hlt. simpl in Hlt. lia. }
  pose proof (num_components_max a c la k Hl Hk) as Hn.
  assert (Hpos : 0 < k).
  { pose proof (nth_In (data la) 0 Hlt) as Hin.
    pose proof (cc_nonneg cc Hcc a c la Hl _ Hin).
    pose proof (np_max_spec la k Hk) as [_ Hmax]. specialize (Hmax _ Hin). lia. }
  assert (Hhit : forall (mask : ndarray bool) l,
            (forall j, nth j (data mask) false = nth j (data a) false) ->
            In l (py_range 1 (k + 1)) -> cluster_hits la mask l = true).
  { intros mask l Hmask Hin. apply py_range_In in Hin.
    apply cluster_hits_overlaps.
    pose proof (cc_contiguous cc Hcc a c la k Hl Hk l ltac:(lia)) as Hl_in.
    apply In_nth with (d := 0) in Hl_in as [j [Hj Hjl]].
    exists j. split; [split; assumption|].
    rewrite Hmask. apply (cc_foreground cc Hcc a c la Hl j). lia. }
  pose proof (lesion_wise_counts_eq a a c la la k k eq_refl Hl Hk Hl Hk) as E.
  cbv zeta in E.
  rewrite count_if_all in E.
  2:{ intros l Hin. apply Hhit; [|exact Hin].
      intros j. simpl. rewrite nth_zip_and. apply andb_diag. }
  rewrite py_range_length in E by lia.
  rewrite count_if_none in E.
  2:{ intros l Hin. rewrite Hhit; [reflexivity | reflexivity | exact Hin]. }
  rewrite count_if_none in E.
  2:{ intros l Hin. rewrite Hhit; [reflexivity| |exact Hin].
      intros j. simpl. rewrite nth_zip_and. apply andb_diag. }
  replace (k + 1 - 1) with k in E by lia.
  exists la, (inject_Z k / (inject_Z k + inject_Z (0 + 0) / 2))%Q.
  rewrite Hn. split; [exact Hl|]. split; [exact Hpos|]. split; [exact E|]. split.
  - unfold compute_lesion_f1_score. rewrite E. cbn [bind].
    rewrite (f1_from_counts_value a a empty_value c k 0 0 W E).
    destruct (Z.eqb_spec (k + 0 + 0) 0); [lia | reflexivity].
  - destruct k as [|q|q]; try lia. unfold Qeq. simpl. lia.
Qed.

(** C10: whenever the final conditional of [compute_lesion_f1_score] is
    reached, a zero sum of the counts implies that the cluster count of the
    ground truth is zero, so [f1_score] is assigned and the function returns
    it: the read of an unassigned [f1_score] does not happen. *)
Theorem lesion_f1_always_assigned (gt pred : ndarray bool) (empty_value : Q)
    (c tp fp fn : Z) :
  well_formed gt ->
  lesion_wise_counts cc gt pred c = Ok (tp, fp, fn) ->
  (tp + fp + fn = 0 -> compute_number_of_clusters cc gt 26 = Ok 0) /\
  (exists s, compute_lesion_f1_score cc gt pred empty_value c = Ok s) /\
  compute_lesion_f1_score cc gt pred empty_value c <> Raise UnboundLocalError.
Proof.
  intros W Hrun.
  destruct (zero_counts_no_clusters gt pred c tp fp fn W Hrun) as (_ & _ & _ & Hz).
  assert (E : exists s, compute_lesion_f1_score cc gt pred empty_value c = Ok s).
  { unfold compute_lesion_f1_score. rewrite Hrun. cbn [bind].
    rewrite (f1_from_counts_value gt pred empty_value c tp fp fn W Hrun). eauto. }
  split; [exact Hz|]. split; [exact E|].
  destruct E as [s ->]. discriminate.
Qed.

End LesionWise.

(** ** The flood-fill labeler meets the contract *)

Lemma range_from_nth (n : nat) (lo d : Z) (j : nat) :
  (j < n)%nat -> nth j (range_from lo n) d = lo + Z.of_nat j.
Proof.
  revert lo j. induction n as [|n IH]; intros lo [|j] H; simpl range_from; try lia.
  - simpl. lia.
  - simpl nth. rewrite IH by lia. lia.
Qed.

Lemma foreground_map_Some (l : list bool) (lo i v : Z) :
  foreground_map lo l !! i = Some v ->
  v = 0 /\ lo <= i < lo + Z.of_nat (length l) /\
  nth (Z.to_nat (i - lo)) l false = true.
Proof.
  revert lo. induction l as [|b t IH]; intros lo; simpl foreground_map.
  - rewrite lookup_empty. discriminate.
  - assert (Hrest : foreground_map (lo + 1) t !! i = Some v ->
                    v = 0 /\ lo <= i < lo + Z.of_nat (length (b :: t)) /\
                    nth (Z.to_nat (i - lo)) (b :: t) false = true).
    { intros H. apply IH in H as (Hv & Hr & Hn). simpl length.
      split; [exact Hv|]. split; [lia|].
      replace (Z.to_nat (i - lo)) with (S (Z.to_nat (i - (lo + 1)))) by lia.
      exact Hn. }
    destruct b; [|exact Hrest].
    destruct (decide (lo = i)) as [->|Hne].
    + rewrite lookup_insert_eq. intros H. injection H as <-.
      simpl length. split; [reflexivity|]. split; [lia|].
      replace (Z.to_nat (i - i)) with 0%nat by lia. reflexivity.
    + rewrite lookup_insert_ne by exact Hne. exact Hrest.
Qed.

Lemma foreground_map_lookup (l : list bool) (lo i : Z) :
  lo <= i < lo + Z.of_nat (length l) ->
  nth (Z.to_nat (i - lo)) l false = true ->
  foreground_map lo l !! i = Some 0.
Proof.
  revert lo. induction l as [|b t IH]; intros lo; simpl length; [lia|].
  intros Hr Hn. simpl foreground_map.
  destruct (decide (lo = i)) as [->|Hne].
  - replace (Z.to_nat (i - i)) with 0%nat in Hn by lia. simpl in Hn. subst b.
    apply lookup_insert_eq.
  - assert (Hrest : foreground_map (lo + 1) t !! i = Some 0).
    { apply IH; [lia|].
      replace (Z.to_nat (i - lo)) with (S (Z.to_nat (i - (lo + 1)))) in Hn by lia.
      exact Hn. }
    destruct b; [rewrite lookup_insert_ne by exact Hne|]; exact Hrest.
Qed.

Lemma foreground_map_ok (data : list bool) :
  label_store_ok data (foreground_map 0 data) 0.
Proof.
  split.
  - lia.
  - intros i. split.
    + intros [v Hv]. apply foreground_map_Some in Hv as (_ & Hr & Hn).
      rewrite Z.sub_0_r in Hn. split; [lia | exact Hn].
    + intros [Hr Hn]. exists 0. apply foreground_map_lookup; [lia|].
      rewrite Z.sub_0_r. exact Hn.
  - intros i v Hv. apply foreground_map_Some in Hv as (-> & _). lia.
  - intros l Hl. lia.
Qed.

Lemma labels_kept_refl (m : gmap Z Z) : labels_kept m m.
Proof. intros i v H _. exact H. Qed.

Lemma labels_kept_trans (m1 m2 m3 : gmap Z Z) :
  labels_kept m1 m2 -> labels_kept m2 m3 -> labels_kept m1 m3.
Proof. intros H12 H23 i v H Hv. apply H23; [apply H12|]; assumption. Qed.

(** Labeling an unlabeled voxel with a label in use, or with the next
    free one, keeps the invariant. *)
Lemma store_insert (data : list bool) (m : gmap Z Z) (K K' i l : Z) :
  label_store_ok data m K -> m !! i = Some 0 ->
  1 <= l <= K' -> (K' = K \/ (K' = K + 1 /\ l = K')) ->
  label_store_ok data (<[i:=l]> m) K' /\ labels_kept m (<[i:=l]> m).
Proof.
  intros [Hc Hd Hr Ho] Hi Hl HK'. split; [split|].
  - lia.
  - intros j. rewrite <- Hd. destruct (decide (i = j)) as [<-|Hne].
    + rewrite lookup_insert_eq, Hi. split; intros _; eauto.
    + rewrite lookup_insert_ne by exact Hne. reflexivity.
  - intros j v. destruct (decide (i = j)) as [<-|Hne].
    + rewrite lookup_insert_eq. intros H. injection H as <-. lia.
    + rewrite lookup_insert_ne by exact Hne. intros H. apply Hr in H. lia.
  - intros l' Hl'. destruct (decide (l' = l)) as [->|Hne].
    + exists i. apply lookup_insert_eq.
    + destruct (Ho l' ltac:(lia)) as [j Hj]. exists j.
      rewrite lookup_insert_ne; [exact Hj|]. intros <-. rewrite Hi in Hj.
      injection Hj as <-. lia.
  - intros j v Hj Hv. rewrite lookup_insert_ne; [exact Hj|].
    intros <-. rewrite Hi in Hj. injection Hj as <-. congruence.
Qed.

Lemma fill_ok (data : list bool) (nb : Z -> list Z) (K l : Z) (fuel : nat) :
  1 <= l <= K ->
  forall (work : list Z) (m : gmap Z Z),
    label_store_ok data m K ->
    label_store_ok data (fill fuel nb l work m) K /\
    labels_kept m (fill fuel nb l work m).
Proof.
  intros Hl. induction fuel as [|fuel IH]; intros work m Hok; simpl fill.
  - split; [exact Hok | apply labels_kept_refl].
  - destruct work as [|i w]; [split; [exact Hok | apply labels_kept_refl]|].
    destruct (m !! i) as [[| |]|] eqn:Hi; try apply IH; try exact Hok.
    destruct (store_insert data m K K i l Hok Hi Hl ltac:(auto))
      as [Hok' Hkept].
    destruct (IH (nb i ++ w) (<[i:=l]> m) Hok') as [Hok'' Hkept'].
    split; [exact Hok''|]. exact (labels_kept_trans _ _ _ Hkept Hkept').
Qed.

Lemma scan_ok (data : list bool) (nb : Z -> list Z) (fuel : nat) (idxs : list Z) :
  forall (m : gmap Z Z) (K : Z),
    label_store_ok data m K ->
    label_store_ok data (fst (scan fuel nb idxs m K)) (snd (scan fuel nb idxs m K)) /\
    labels_kept m (fst (scan fuel nb idxs m K)) /\
    forall i, In i idxs -> fst (scan fuel nb idxs m K) !! i <> Some 0.
Proof.
  induction idxs as [|i rest IH]; intros m K Hok; simpl scan.
  - split; [exact Hok|]. split; [apply labels_kept_refl | contradiction].
  - assert (Hskip : m !! i <> Some 0 ->
        label_store_ok data (fst (scan fuel nb rest m K)) (snd (scan fuel nb rest m K)) /\
        labels_kept m (fst (scan fuel nb rest m K)) /\
        forall j, In j (i :: rest) -> fst (scan fuel nb rest m K) !! j <> Some 0).
    { intros Hi. destruct (IH m K Hok) as (Hok' & Hkept & Hdone).
      split; [exact Hok'|]. split; [exact Hkept|].
      intros j [<-|Hj]; [|apply Hdone; exact Hj].
      destruct (m !! i) as [v|] eqn:Hv.
      - rewrite (Hkept i v Hv); congruence.
      - intros Hz. apply (eq_None_not_Some (m !! i)); [exact Hv|].
        apply (store_dom _ _ _ Hok). apply (store_dom _ _ _ Hok'). eauto. }
    destruct (m !! i) as [[| |]|] eqn:Hi; try (apply Hskip; congruence).
    pose proof (store_count _ _ _ Hok) as HK.
    destruct (store_insert data m K (K + 1) i (K + 1) Hok Hi
                ltac:(lia) ltac:(auto)) as [Hok1 Hkept1].
    destruct (fill_ok data nb (K + 1) (K + 1) fuel ltac:(lia) (nb i) _ Hok1)
      as [Hok2 Hkept2].
    destruct (IH _ (K + 1) Hok2) as (Hok3 & Hkept3 & Hdone).
    split; [exact Hok3|]. split.
    + exact (labels_kept_trans _ _ _ Hkept1 (labels_kept_trans _ _ _ Hkept2 Hkept3)).
    + intros j [<-|Hj]; [|apply Hdone; exact Hj].
      rewrite (Hkept3 i (K + 1)); [intros H; injection H; lia| |lia].
      apply Hkept2; [apply lookup_insert_eq | lia].
Qed.

(** The label array read off a store that the scan has finished. *)
Lemma scanned_labels (data : list bool) (m : gmap Z Z) (K : Z) :
  label_store_ok data m K ->
  (forall i, In i (range_from 0 (length data)) -> m !! i <> Some 0) ->
  let labels := map (fun i => default 0 (m !! i)) (range_from 0 (length data)) in
  (forall l, In l labels -> 0 <= l <= K) /\
  (forall i, nth i labels 0 <> 0 <-> nth i data false = true) /\
  (forall l, 1 <= l <= K -> In l labels).
Proof.
  intros Hok Hdone labels.
  assert (Hlen : length labels = length data).
  { unfold labels. rewrite length_map. apply range_from_length. }
  assert (Hnth : forall i, (i < length data)%nat ->
                           nth i labels 0 = default 0 (m !! Z.of_nat i)).
  { intros i Hi. unfold labels.
    rewrite (nth_indep _ 0 (default 0 (m !! 0))) by (rewrite <- Hlen in Hi; exact Hi).
    rewrite (map_nth (fun i => default 0 (m !! i))).
    rewrite range_from_nth by exact Hi. reflexivity. }
  pose proof (store_count _ _ _ Hok) as HK.
  split; [|split].
  - intros l Hin. unfold labels in Hin. apply in_map_iff in Hin as [i [<- _]].
    destruct (m !! i) as [v|] eqn:Hv; simpl; [|lia].
    apply (store_range _ _ _ Hok i v Hv).
  - intros i. destruct (Nat.lt_ge_cases i (length data)) as [Hi|Hi].
    + rewrite (Hnth i Hi).
      pose proof (store_dom _ _ _ Hok (Z.of_nat i)) as Hd.
      rewrite Nat2Z.id in Hd. split.
      * intros Hne. destruct (m !! Z.of_nat i) as [v|] eqn:Hv; [|simpl in Hne; congruence].
        apply Hd. eauto.
      * intros Hfg.
        assert (Hr : 0 <= Z.of_nat i < Z.of_nat (length data)) by lia.
        destruct (proj2 Hd (conj Hr Hfg)) as [v Hv].
        rewrite Hv. simpl. intros ->. apply (Hdone (Z.of_nat i)); [|exact Hv].
        apply range_from_In. lia.
    + rewrite !nth_overflow by lia. split; [congruence | discriminate].
  - intros l Hl. destruct (store_onto _ _ _ Hok l Hl) as [i Hi].
    unfold labels. apply in_map_iff. exists i. rewrite Hi. split; [reflexivity|].
    apply range_from_In. apply (store_dom _ _ _ Hok i). eauto.
Qed.

(** The flood-fill labeler satisfies the contract assumed of
    [cc3d.connected_components]. *)
Lemma flood_fill_contract : labeler_contract flood_fill_components.
Proof.
  assert (Hrun : forall im c labeled,
    flood_fill_components im c = Ok labeled ->
    exists m K,
      label_store_ok (data im) m K /\
      (forall i, In i (range_from 0 (length (data im))) -> m !! i <> Some 0) /\
      labeled = mk_ndarray (shape im)
                  (map (fun i => default 0 (m !! i)) (range_from 0 (length (data im))))).
  { intros im c labeled. unfold flood_fill_components.
    destruct (negb (valid_connectivity c)); [discriminate|].
    intros H. injection H as <-.
    destruct (scan_ok (data im) (neighbours (shape im) c)
                (27 * (length (data im) + 1))%nat (range_from 0 (length (data im)))
                _ 0 (foreground_map_ok (data im))) as (Hok & _ & Hdone).
    eexists _, _. split; [exact Hok|]. split; [exact Hdone | reflexivity]. }
  split.
  - intros im c _ Hc. unfold flood_fill_components. rewrite Hc. simpl. eauto.
  - intros im c labeled H. apply Hrun in H as (m & K & _ & _ & ->). simpl.
    split; [reflexivity|]. rewrite length_map. apply range_from_length.
  - intros im c labeled H l Hin. apply Hrun in H as (m & K & Hok & Hdone & ->).
    simpl in Hin. destruct (scanned_labels _ m K Hok Hdone) as (Hr & _).
    apply Hr in Hin. lia.
  - intros im c labeled H i. apply Hrun in H as (m & K & Hok & Hdone & ->).
    simpl. destruct (scanned_labels _ m K Hok Hdone) as (_ & Hfg & _). apply Hfg.
  - intros im c labeled k H Hk l Hl. apply Hrun in H as (m & K & Hok & Hdone & ->).
    simpl. destruct (scanned_labels _ m K Hok Hdone) as (Hr & _ & Honto).
    apply Honto. apply np_max_spec in Hk as [Hin _]. simpl in Hin.
    apply Hr in Hin. lia.
Qed.

(** ** The metrics on the sample volumes *)

Example diagonal_pair_6 :
  (let* a := flood_fill_components diagonal_pair 6 in Ok (data a)) =
  Ok [1; 0; 0; 0; 0; 0; 0; 2].
Proof. vm_compute. reflexivity. Qed.

Example diagonal_pair_26 :
  (let* a := flood_fill_components diagonal_pair 26 in Ok (data a)) =
  Ok [1; 0; 0; 0; 0; 0; 0; 1].
Proof. vm_compute. reflexivity. Qed.

Example invalid_connectivity_raises :
  flood_fill_components diagonal_pair 4 = Raise ValueError.
Proof. reflexivity. Qed.

Example broadcast_and :
  logical_and (mk_ndarray (1, 1, 1) [true]) (mk_ndarray (1, 1, 2) [false; true]) =
  Ok (mk_ndarray (1, 1, 2) [false; true]).
Proof. reflexivity. Qed.

Example zero_size_raises :
  compute_lesion_f1_score flood_fill_components
    (mk_ndarray (0, 0, 0) []) (mk_ndarray (0, 0, 0) []) 1 26 = Raise ValueError.
Proof. vm_compute. reflexivity. Qed.

Example sample_counts :
  lesion_wise_counts flood_fill_components sample_ground_truth sample_prediction 26 =
  Ok (1, 1, 1).
Proof. vm_compute. reflexivity. Qed.

Example sample_f1 :
  compute_lesion_f1_score flood_fill_components sample_ground_truth sample_prediction 1 26 =
  Ok (inject_Z 1 / (inject_Z 1 + inject_Z (1 + 1) / 2))%Q.
Proof. vm_compute. reflexivity. Qed.

Example sample_lesion_difference :
  compute_absolute_lesion_difference flood_fill_components
    sample_ground_truth (mk_ndarray (1, 1, 5) [true; false; true; false; true]) = Ok 1.
Proof. vm_compute. reflexivity. Qed.

Lemma isolated_line_well_formed : well_formed isolated_line.
Proof. vm_compute. repeat split; discriminate. Qed.

Example isolated_line_max :
  (let* labeled := flood_fill_components isolated_line 26 in np_max labeled) = Ok 32768.
Proof. vm_compute. reflexivity. Qed.

Lemma isolated_line_run (labeled : ndarray Z) (k : Z) :
  flood_fill_components isolated_line 26 = Ok labeled -> np_max labeled = Ok k ->
  k = 32768.
Proof.
  intros Hl Hk. pose proof isolated_line_max as E.
  rewrite Hl in E. cbn [bind] in E. rewrite Hk in E. injection E as ->. reflexivity.
Qed.

Example isolated_line_clusters :
  compute_number_of_clusters flood_fill_components isolated_line 26 = Ok (-32768).
Proof.
  destruct (cc_returns _ flood_fill_contract isolated_line 26
              isolated_line_well_formed eq_refl) as [labeled Hl].
  pose proof isolated_line_max as E. unfold compute_number_of_clusters.
  rewrite Hl in *. cbn [bind] in *. rewrite E. reflexivity.
Qed.

(** ** Instances of the stated properties *)

Lemma compute_dice_symmetric_witness :
  shape sample_ground_truth = shape sample_prediction /\
  compute_dice sample_ground_truth sample_prediction 1 =
  compute_dice sample_prediction sample_ground_truth 1.
Proof.
  split; [reflexivity|].
  apply (compute_dice_symmetric sample_ground_truth sample_prediction 1). reflexivity.
Defined.

Lemma volume_difference_warns_witness :
  shape (mk_ndarray (1, 1, 1) [true]) <> shape (mk_ndarray (1, 1, 2) [false; false]) /\
  compute_absolute_volume_difference
    (mk_ndarray (1, 1, 1) [true]) (mk_ndarray (1, 1, 2) [false; false]) 1 =
  ([ShapeMismatchWarning],
   Ok (Qabs (inject_Z (np_sum (mk_ndarray (1, 1, 1) [true])) * 1 -
             inject_Z (np_sum (mk_ndarray (1, 1, 2) [false; false])) * 1))).
Proof.
  split; [discriminate|].
  apply (volume_difference_warns_and_continues
           (mk_ndarray (1, 1, 1) [true]) (mk_ndarray (1, 1, 2) [false; false]) 1).
  discriminate.
Defined.

Lemma compute_number_of_clusters_int16_witness :
  flood_fill_components sample_ground_truth 26 =
    Ok (mk_ndarray (1, 1, 5) [1; 0; 2; 0; 0]) /\
  np_max (mk_ndarray (1, 1, 5) [1; 0; 2; 0; 0]) = Ok 2 /\
  compute_number_of_clusters flood_fill_components sample_ground_truth 26 =
    Ok (astype_int16 2) /\
  2 = num_components (mk_ndarray (1, 1, 5) [1; 0; 2; 0; 0]).
Proof.
  assert (Hl : flood_fill_components sample_ground_truth 26 =
               Ok (mk_ndarray (1, 1, 5) [1; 0; 2; 0; 0])) by (vm_compute; reflexivity).
  assert (Hk : np_max (mk_ndarray (1, 1, 5) [1; 0; 2; 0; 0]) = Ok 2) by reflexivity.
  split; [exact Hl|]. split; [exact Hk|].
  destruct (compute_number_of_clusters_int16 flood_fill_components flood_fill_contract
              sample_ground_truth 26 _ 2 Hl Hk) as (H1 & H2 & _).
  split; [exact H1 | exact H2].
Defined.

Lemma lesion_wise_classification_witness :
  shape sample_ground_truth = shape sample_prediction /\
  lesion_wise_counts flood_fill_components sample_ground_truth sample_prediction 26 =
    Ok (1, 1, 1) /\
  exists lgt lpred kgt kpred,
    flood_fill_components sample_ground_truth 26 = Ok lgt /\ np_max lgt = Ok kgt /\
    flood_fill_components sample_prediction 26 = Ok lpred /\ np_max lpred = Ok kpred /\
    (forall l, In l (py_range 1 (kgt + 1)) <-> In l (cluster_labels lgt)) /\
    (forall l, In l (py_range 1 (kpred + 1)) <-> In l (cluster_labels lpred)) /\
    exists is_tp is_fp : Z -> bool,
      (forall l, is_tp l = true <->
                 overlaps_both lgt sample_ground_truth sample_prediction l) /\
      (forall l, is_fp l = true <-> ~ overlaps lpred sample_ground_truth l) /\
      1 = count_if is_tp (py_range 1 (kgt + 1)) /\
      1 = count_if (fun l => negb (is_tp l)) (py_range 1 (kgt + 1)) /\
      1 = count_if is_fp (py_range 1 (kpred + 1)).
Proof.
  split; [reflexivity|]. split; [vm_compute; reflexivity|].
  apply (lesion_wise_classification flood_fill_components flood_fill_contract
           sample_ground_truth sample_prediction 26 1 1 1);
    [reflexivity | vm_compute; reflexivity].
Defined.

Lemma lesion_f1_value_witness :
  well_formed sample_ground_truth /\
  lesion_wise_counts flood_fill_components sample_ground_truth sample_prediction 26 =
    Ok (1, 1, 1) /\
  (1 + 1 + 1 = 0 ->
   compute_lesion_f1_score flood_fill_components
     sample_ground_truth sample_prediction 1 26 = Ok 1%Q) /\
  (1 + 1 + 1 > 0 ->
   compute_lesion_f1_score flood_fill_components
     sample_ground_truth sample_prediction 1 26 =
   Ok (inject_Z 1 / (inject_Z 1 + inject_Z (1 + 1) / 2))%Q).
Proof.
  split; [unfold well_formed; simpl; lia|]. split; [vm_compute; reflexivity|].
  apply (lesion_f1_value flood_fill_components flood_fill_contract
           sample_ground_truth sample_prediction 1 26 1 1 1);
    [unfold well_formed; simpl; lia | vm_compute; reflexivity].
Defined.


Lemma lesion_wise_counts_exhaustive_witness :
  shape sample_ground_truth = shape sample_prediction /\
  lesion_wise_counts flood_fill_components sample_ground_truth sample_prediction 26 =
    Ok (1, 1, 1) /\
  exists lgt lpred kpred,
    flood_fill_components sample_ground_truth 26 = Ok lgt /\
    flood_fill_components sample_prediction 26 = Ok lpred /\ np_max lpred = Ok kpred /\
    1 + 1 = num_components lgt /\
    (num_components lgt <= 32767 ->
     compute_number_of_clusters flood_fill_components sample_ground_truth 26 =
     Ok (1 + 1)) /\
    exists is_fp : Z -> bool,
      (forall l, is_fp l = true <-> ~ overlaps lpred sample_ground_truth l) /\
      1 = count_if is_fp (py_range 1 (kpred + 1)) /\
      count_if (fun l => negb (is_fp l)) (py_range 1 (kpred + 1)) + 1 =
      num_components lpred /\
      (num_components lpred <= 32767 ->
       compute_number_of_clusters flood_fill_components sample_prediction 26 =
       Ok (count_if (fun l => negb (is_fp l)) (py_range 1 (kpred + 1)) + 1)).
Proof.
  split; [reflexivity|]. split; [vm_compute; reflexivity|].
  apply (lesion_wise_counts_exhaustive flood_fill_components flood_fill_contract
           sample_ground_truth sample_prediction 26 1 1 1);
    [reflexivity | vm_compute; reflexivity].
Defined.

Lemma lesion_f1_self_witness :
  well_formed sample_ground_truth /\
  (exists i, nth i (data sample_ground_truth) false = true) /\
  valid_connectivity 6 = true /\
  exists la s,
    flood_fill_components sample_ground_truth 6 = Ok la /\ 0 < num_components la /\
    lesion_wise_counts flood_fill_components sample_ground_truth sample_ground_truth 6 =
      Ok (num_components la, 0, 0) /\
    compute_lesion_f1_score flood_fill_components
      sample_ground_truth sample_ground_truth 1 6 = Ok s /\ (s == 1)%Q.
Proof.
  split; [unfold well_formed; simpl; lia|].
  split; [exists 0%nat; reflexivity|]. split; [reflexivity|].
  apply (lesion_f1_self flood_fill_components flood_fill_contract
           sample_ground_truth 1 6);
    [unfold well_formed; simpl; lia | exists 0%nat; reflexivity | reflexivity].
Defined.

Lemma lesion_f1_always_assigned_witness :
  well_formed sample_ground_truth /\
  lesion_wise_counts flood_fill_components sample_ground_truth sample_prediction 26 =
    Ok (1, 1, 1) /\
  (1 + 1 + 1 = 0 ->
   compute_number_of_clusters flood_fill_components sample_ground_truth 26 = Ok 0) /\
  (exists s, compute_lesion_f1_score flood_fill_components
               sample_ground_truth sample_prediction 1 26 = Ok s) /\
  compute_lesion_f1_score flood_fill_components
    sample_ground_truth sample_prediction 1 26 <> Raise UnboundLocalError.
Proof.
  split; [unfold well_formed; simpl; lia|]. split; [vm_compute; reflexivity|].
  apply (lesion_f1_always_assigned flood_fill_components flood_fill_contract
           sample_ground_truth sample_prediction 1 26 1 1 1);
    [unfold well_formed; simpl; lia | vm_compute; reflexivity].
Defined.

(** C4 as stated fails: on the line of 32768 isolated voxels, compared
    with itself, [tp + fn] is 32768 while [compute_number_of_clusters]
    returns -32768 under the same connectivity. *)
Lemma isolated_line_count_mismatch :
  shape isolated_line = shape isolated_line /\
  exists tp fp fn,
    lesion_wise_counts flood_fill_components isolated_line isolated_line 26 =
      Ok (tp, fp, fn) /\
    tp + fn = 32768 /\
    compute_number_of_clusters flood_fill_components isolated_line 26 = Ok (-32768) /\
    compute_number_of_clusters flood_fill_components isolated_line 26 <> Ok (tp + fn).
Proof.
  split; [reflexivity|].
  assert (Hne : data isolated_line <> []).
  { intros E. assert (Hin : In true (data isolated_line)).
    { apply in_or_app. right. left. reflexivity. }
    rewrite E in Hin. contradiction. }
  destruct (lesion_wise_counts_returns flood_fill_components flood_fill_contract
              isolated_line isolated_line 26 isolated_line_well_formed
              isolated_line_well_formed eq_refl Hne eq_refl) as (tp & fp & fn & Hrun).
  exists tp, fp, fn. split; [exact Hrun|].
  destruct (lesion_wise_counts_run flood_fill_components isolated_line isolated_line
              26 tp fp fn Hrun)
    as (inter & lgt & lpred & kgt & kpred & _ & Hg & Hkg & _ & _ & Hgl & _).
  pose proof (isolated_line_run lgt kgt Hg Hkg) as ->.
  apply ground_truth_loop_total in Hgl. rewrite py_range_length in Hgl by lia.
  assert (Hsum : tp + fn = 32768) by lia.
  split; [exact Hsum|]. rewrite isolated_line_clusters, Hsum.
  split; [reflexivity | discriminate].
Qed.


(** With the same counts and a ground truth that has lesions, [f1_score]
    stays unassigned and the return raises. *)
Example final_conditional_unassigned :
  f1_from_counts flood_fill_components sample_ground_truth 1 0 0 0 =
  Raise UnboundLocalError.
Proof. vm_compute. reflexivity. Qed.

(** * Further properties of the metrics *)

(** ** Arithmetic of the scores *)

Lemma count_true_zip_and_le (l1 l2 : list bool) :
  count_true (zip_and l1 l2) <= count_true l1 /\ count_true (zip_and l1 l2) <= count_true l2.
Proof.
  revert l2. induction l1 as [|b1 t1 IH]; intros [|b2 t2]; simpl.
  - lia.
  - pose proof (count_true_nonneg t2). destruct b2; lia.
  - pose proof (count_true_nonneg t1). destruct b1; lia.
  - destruct (IH t2). destruct b1, b2; simpl; lia.
Qed.

Lemma zip_and_full (l1 l2 : list bool) :
  length l1 = length l2 ->
  count_true (zip_and l1 l2) = count_true l1 ->
  count_true (zip_and l1 l2) = count_true l2 -> l1 = l2.
Proof.
  revert l2. induction l1 as [|b1 t1 IH]; intros [|b2 t2]; simpl; try discriminate; auto.
  intros Hlen H1 H2. destruct (count_true_zip_and_le t1 t2).
  destruct b1, b2; simpl in *; try lia; f_equal; apply IH; lia.
Qed.

Lemma zip_and_diag (l : list bool) : zip_and l l = l.
Proof. induction l as [|b t IH]; simpl; [reflexivity|]. rewrite andb_diag, IH. reflexivity. Qed.

Lemma Qdiv_inject_unit (a b : Z) :
  0 <= a <= b -> 0 < b -> (0 <= inject_Z a / inject_Z b <= 1)%Q.
Proof.
  intros Ha Hb. destruct b as [|p|p]; try lia.
  unfold Qle, Qdiv, Qmult, Qinv, inject_Z. simpl. lia.
Qed.

Lemma Qdiv_inject_zero (a b : Z) :
  0 < b -> (inject_Z a / inject_Z b == 0)%Q <-> a = 0.
Proof.
  intros Hb. destruct b as [|p|p]; try lia.
  unfold Qeq, Qdiv, Qmult, Qinv, inject_Z. simpl. lia.
Qed.

Lemma Qdiv_inject_one (a b : Z) :
  0 < b -> (inject_Z a / inject_Z b == 1)%Q <-> a = b.
Proof.
  intros Hb. destruct b as [|p|p]; try lia.
  unfold Qeq, Qdiv, Qmult, Qinv, inject_Z. simpl. lia.
Qed.

(** The lesion-wise score on counts that are not all zero: it lies between
    0 and 1, is 2·tp / (2·tp + fp + fn), is 0 exactly without a true
    positive and 1 exactly without false positives and negatives. *)
Lemma f1_formula_facts (tp fp fn : Z) :
  0 <= tp -> 0 <= fp -> 0 <= fn -> tp + fp + fn <> 0 ->
  let s := (inject_Z tp / (inject_Z tp + inject_Z (fp + fn) / 2))%Q in
  (0 <= s <= 1)%Q /\
  (s == inject_Z (2 * tp) / inject_Z (2 * tp + fp + fn))%Q /\
  ((s == 0)%Q <-> tp = 0) /\
  ((s == 1)%Q <-> fp = 0 /\ fn = 0).
Proof.
  intros Htp Hfp Hfn Hsum s.
  assert (Qtp : (0 <= inject_Z tp)%Q) by (change (inject_Z 0 <= inject_Z tp)%Q; rewrite <- Zle_Qle; exact Htp).
  assert (Qfp : (0 <= inject_Z fp)%Q) by (change (inject_Z 0 <= inject_Z fp)%Q; rewrite <- Zle_Qle; exact Hfp).
  assert (Qfn : (0 <= inject_Z fn)%Q) by (change (inject_Z 0 <= inject_Z fn)%Q; rewrite <- Zle_Qle; exact Hfn).
  assert (Qsum : (0 < inject_Z tp + inject_Z fp + inject_Z fn)%Q).
  { rewrite <- !inject_Z_plus. change 0%Q with (inject_Z 0). rewrite <- Zlt_Qlt. lia. }
  assert (Hs : (s == 2 * inject_Z tp / (2 * inject_Z tp + inject_Z fp + inject_Z fn))%Q).
  { unfold s. rewrite inject_Z_plus. field. lra. }
  assert (Hd : (0 < 2 * inject_Z tp + inject_Z fp + inject_Z fn)%Q) by lra.
  split; [|split; [|split]].
  - rewrite Hs. split.
    + apply Qle_shift_div_l; [exact Hd | lra].
    + apply Qle_shift_div_r; [exact Hd | lra].
  - rewrite Hs. rewrite !inject_Z_plus, inject_Z_mult. reflexivity.
  - rewrite Hs. split.
    + intros E. 
      assert (E' : (2 * inject_Z tp == 0)%Q).
      { rewrite <- (Qmult_div_r (2 * inject_Z tp) (2 * inject_Z tp + inject_Z fp + inject_Z fn)) by lra.
        rewrite E. ring. }
      assert (E2 : (inject_Z tp == inject_Z 0)%Q) by (change (inject_Z 0) with 0%Q; lra).
      apply (proj1 (inject_Z_injective _ _)) in E2. exact E2.
    + intros ->. change (inject_Z 0) with 0%Q in *. field. lra.
  - rewrite Hs. split.
    + intros E.
      assert (E' : (2 * inject_Z tp == 2 * inject_Z tp + inject_Z fp + inject_Z fn)%Q).
      { rewrite <- (Qmult_div_r (2 * inject_Z tp) (2 * inject_Z tp + inject_Z fp + inject_Z fn)) at 1 by lra.
        rewrite E. ring. }
      assert (E1 : (inject_Z fp == inject_Z 0)%Q) by (change (inject_Z 0) with 0%Q; lra).
      assert (E2 : (inject_Z fn == inject_Z 0)%Q) by (change (inject_Z 0) with 0%Q; lra).
      apply (proj1 (inject_Z_injective _ _)) in E1.
      apply (proj1 (inject_Z_injective _ _)) in E2. auto.
    + intros [-> ->]. change (inject_Z 0) with 0%Q in *. field. lra.
Qed.

Lemma astype_int16_abs_opp (x : Z) :
  Z.abs (astype_int16 (- x)) = Z.abs (astype_int16 x).
Proof. unfold astype_int16. Z.div_mod_to_equations. lia. Qed.

Lemma shape_eqb_sym (s1 s2 : shape_t) : shape_eqb s1 s2 = shape_eqb s2 s1.
Proof.
  destruct (shape_eqb s2 s1) eqn:E.
  - apply shape_eqb_eq in E. apply shape_eqb_eq. auto.
  - apply shape_eqb_neq in E. apply shape_eqb_neq. auto.
Qed.

Lemma Qabs_minus_swap (a b : Q) : Qabs (a - b) = Qabs (b - a).
Proof.
  destruct a as [an ad], b as [bn bd]. unfold Qminus, Qplus, Qopp, Qabs. simpl.
  f_equal; [lia | apply Pos.mul_comm].
Qed.

Lemma equal_shape_lengths (a b : ndarray bool) :
  well_formed a -> well_formed b -> shape a = shape b ->
  length (data a) = length (data b).
Proof.
  unfold well_formed. intros Wa Wb Hs. rewrite Hs in Wa.
  destruct (shape b) as [[x y] z]. lia.
Qed.

(** ** Voxel-wise Dice, continued *)

(** The value of [compute_dice] on equal shapes when the masks are not both
    empty. *)
Lemma compute_dice_value (im1 im2 : ndarray bool) (e : Q) :
  shape im1 = shape im2 -> np_sum im1 + np_sum im2 <> 0 ->
  compute_dice im1 im2 e =
  Ok (inject_Z (2 * count_true (zip_and (data im1) (data im2))) /
      inject_Z (np_sum im1 + np_sum im2))%Q.
Proof.
  intros Hs Hn. unfold compute_dice. rewrite Hs, shape_eqb_refl. simpl negb. cbv iota.
  destruct (Z.eqb_spec (np_sum im1 + np_sum im2) 0); [contradiction|].
  rewrite logical_and_same_shape by (rewrite Hs; reflexivity). reflexivity.
Qed.

(** X1: on equal shapes and masks that are not both empty, the Dice
    coefficient lies between 0 and 1. *)
Theorem compute_dice_unit_interval (im1 im2 : ndarray bool) (empty_value : Q) :
  shape im1 = shape im2 -> np_sum im1 + np_sum im2 <> 0 ->
  exists s, compute_dice im1 im2 empty_value = Ok s /\ (0 <= s <= 1)%Q.
Proof.
  intros Hs Hn. rewrite (compute_dice_value im1 im2 empty_value Hs Hn).
  eexists. split; [reflexivity|].
  pose proof (count_true_nonneg (zip_and (data im1) (data im2))).
  pose proof (count_true_nonneg (data im1)). pose proof (count_true_nonneg (data im2)).
  destruct (count_true_zip_and_le (data im1) (data im2)).
  unfold np_sum in *. apply Qdiv_inject_unit; lia.
Qed.

(** X2: on well-formed masks of one shape, not both empty, the Dice
    coefficient is 1 exactly when the two masks are identical. *)
Theorem compute_dice_one_iff_equal (im1 im2 : ndarray bool) (empty_value : Q) :
  well_formed im1 -> well_formed im2 ->
  shape im1 = shape im2 -> np_sum im1 + np_sum im2 <> 0 ->
  exists s, compute_dice im1 im2 empty_value = Ok s /\
            ((s == 1)%Q <-> data im1 = data im2).
Proof.
  intros W1 W2 Hs Hn. rewrite (compute_dice_value im1 im2 empty_value Hs Hn).
  eexists. split; [reflexivity|].
  pose proof (equal_shape_lengths im1 im2 W1 W2 Hs) as Hlen.
  pose proof (count_true_nonneg (data im1)). pose proof (count_true_nonneg (data im2)).
  destruct (count_true_zip_and_le (data im1) (data im2)).
  unfold np_sum in *. rewrite Qdiv_inject_one by lia. split.
  - intros E. apply zip_and_full; [exact Hlen | lia | lia].
  - intros E. rewrite E, zip_and_diag. lia.
Qed.

(** X3: on equal shapes and masks that are not both empty, the Dice
    coefficient is 0 exactly when no voxel is true in both masks. *)
Theorem compute_dice_zero_iff_disjoint (im1 im2 : ndarray bool) (empty_value : Q) :
  shape im1 = shape im2 -> np_sum im1 + np_sum im2 <> 0 ->
  exists s, compute_dice im1 im2 empty_value = Ok s /\
            ((s == 0)%Q <->
             forall i, nth i (data im1) false && nth i (data im2) false = false).
Proof.
  intros Hs Hn. rewrite (compute_dice_value im1 im2 empty_value Hs Hn).
  eexists. split; [reflexivity|].
  pose proof (count_true_nonneg (data im1)). pose proof (count_true_nonneg (data im2)).
  unfold np_sum in *. rewrite Qdiv_inject_zero by lia.
  rewrite <- (Z.mul_0_r 2), Z.mul_cancel_l by lia. rewrite count_true_zero.
  split; intros E i; specialize (E i); rewrite nth_zip_and in *; exact E.
Qed.

(** ** Absolute volume difference, continued *)

(** X4: [compute_absolute_volume_difference] gives the same warnings and
    the same result when its two masks are exchanged, whatever their
    shapes. *)
Theorem volume_difference_symmetric (im1 im2 : ndarray bool) (voxel_size : Q) :
  compute_absolute_volume_difference im1 im2 voxel_size =
  compute_absolute_volume_difference im2 im1 voxel_size.
Proof.
  unfold compute_absolute_volume_difference.
  rewrite (shape_eqb_sym (shape im2) (shape im1)), Qabs_minus_swap. reflexivity.
Qed.

Section MoreLesionWise.

Variable cc : ndarray bool -> Z -> result (ndarray Z).
Hypothesis Hcc : labeler_contract cc.

Lemma zero_size_labels (im : ndarray bool) (c : Z) (labeled : ndarray Z) :
  data im = [] -> cc im c = Ok labeled -> np_max labeled = Raise ValueError.
Proof.
  intros He Hl. destruct (cc_shape cc Hcc im c labeled Hl) as [_ Hlen].
  rewrite He in Hlen. unfold np_max. destruct (data labeled); [reflexivity | discriminate].
Qed.

(** Every label in use marks a foreground voxel of the labeled mask. *)
Lemma cluster_voxel (im : ndarray bool) (c : Z) (labeled : ndarray Z) (k l : Z) :
  cc im c = Ok labeled -> np_max labeled = Ok k -> In l (py_range 1 (k + 1)) ->
  exists i, in_cluster labeled l i /\ nth i (data im) false = true.
Proof.
  intros Hl Hk Hin. apply py_range_In in Hin.
  pose proof (cc_contiguous cc Hcc im c labeled k Hl Hk l ltac:(lia)) as Hl_in.
  apply In_nth with (d := 0) in Hl_in as [j [Hj Hjl]].
  exists j. split; [split; assumption|].
  apply (cc_foreground cc Hcc im c labeled Hl j). lia.
Qed.

Lemma cluster_member_foreground (im : ndarray bool) (c : Z) (labeled : ndarray Z)
    (k l : Z) (i : nat) :
  cc im c = Ok labeled -> In l (py_range 1 (k + 1)) -> in_cluster labeled l i ->
  nth i (data im) false = true.
Proof.
  intros Hl Hin [_ Hi]. apply py_range_In in Hin.
  apply (cc_foreground cc Hcc im c labeled Hl i). lia.
Qed.

(** The labelings and maxima of two non-zero-size masks of one shape. *)
Lemma labelings (gt pred : ndarray bool) (c : Z) :
  well_formed gt -> well_formed pred -> shape gt = shape pred ->
  data gt <> [] -> valid_connectivity c = true ->
  exists lgt lpred kgt kpred,
    cc gt c = Ok lgt /\ np_max lgt = Ok kgt /\
    cc pred c = Ok lpred /\ np_max lpred = Ok kpred /\
    num_components lgt = kgt /\ num_components lpred = kpred /\
    0 <= kgt /\ 0 <= kpred.
Proof.
  intros Wg Wp Hs Hne Hc.
  destruct (cc_returns cc Hcc gt c Wg Hc) as [lgt Hg].
  destruct (cc_returns cc Hcc pred c Wp Hc) as [lpred Hp].
  destruct (cc_shape cc Hcc gt c lgt Hg) as [_ Hlg].
  destruct (cc_shape cc Hcc pred c lpred Hp) as [_ Hlp].
  pose proof (equal_shape_lengths gt pred Wg Wp Hs) as Hlen.
  destruct (np_max_returns lgt) as [kgt Hkg].
  { intros E. rewrite E in Hlg. destruct (data gt); [congruence | discriminate]. }
  destruct (np_max_returns lpred) as [kpred Hkp].
  { intros E. rewrite E, <- Hlen in Hlp. destruct (data gt); [congruence | discriminate]. }
  exists lgt, lpred, kgt, kpred. do 4 (split; [assumption|]).
  split; [apply (num_components_max cc Hcc gt c lgt kgt Hg Hkg)|].
  split; [apply (num_components_max cc Hcc pred c lpred kpred Hp Hkp)|].
  split; [apply (labeled_max_nonneg cc Hcc gt c lgt kgt Hg Hkg)|].
  apply (labeled_max_nonneg cc Hcc pred c lpred kpred Hp Hkp).
Qed.

(** ** Cluster counts and their difference *)

(** X6: on a zero-size array [compute_number_of_clusters] returns no
    count: it raises, and when the labeler itself returns the exception is
    the [ValueError] of the maximum of an empty array. *)
Theorem compute_number_of_clusters_zero_size (im : ndarray bool) (c : Z) :
  data im = [] ->
  exists e, compute_number_of_clusters cc im c = Raise e /\
            (forall labeled, cc im c = Ok labeled -> e = ValueError).
Proof.
  intros He. unfold compute_number_of_clusters.
  destruct (cc im c) as [labeled|e] eqn:Hl; cbn [bind].
  - rewrite (zero_size_labels im c labeled He Hl). cbn [bind].
    exists ValueError. split; [reflexivity | auto].
  - exists e. split; [reflexivity | discriminate].
Qed.

(** X7: on a non-zero-size mask that the labeler accepts,
    [compute_number_of_clusters] returns 0 when the mask has no foreground;
    conversely a returned 0 means no foreground as long as the mask has
    fewer than 65536 components. *)
Theorem compute_number_of_clusters_zero_iff (im : ndarray bool) (c : Z)
    (labeled : ndarray Z) :
  cc im c = Ok labeled -> data im <> [] ->
  ((forall i, nth i (data im) false = false) ->
   compute_number_of_clusters cc im c = Ok 0) /\
  (compute_number_of_clusters cc im c = Ok 0 -> num_components labeled < 65536 ->
   forall i, nth i (data im) false = false).
Proof.
  intros Hl Hne.
  destruct (cc_shape cc Hcc im c labeled Hl) as [_ Hlen].
  destruct (np_max_returns labeled) as [k Hk].
  { intros E. rewrite E in Hlen. destruct (data im); [congruence | discriminate]. }
  pose proof (num_components_max cc Hcc im c labeled k Hl Hk) as Hn.
  pose proof (labeled_max_nonneg cc Hcc im c labeled k Hl Hk) as H0.
  unfold compute_number_of_clusters. rewrite Hl. cbn [bind]. rewrite Hk. cbn [bind].
  split.
  - intros Hbg. rewrite (no_foreground_max_zero cc Hcc im c labeled k Hl Hk Hbg).
    reflexivity.
  - intros E Hb. injection E as E. rewrite Hn in Hb.
    assert (Hk0 : k = 0).
    { unfold astype_int16 in E. revert E. Z.div_mod_to_equations. lia. }
    rewrite Hk0 in Hk. apply (max_zero_no_foreground cc Hcc im c labeled Hl Hk).
Qed.

(** X8: on a well-formed non-zero-size mask and a connectivity of 6, 18 or
    26, [compute_number_of_clusters] returns a count, and the count lies in
    the int16 range. *)
Theorem compute_number_of_clusters_returns (im : ndarray bool) (c : Z) :
  well_formed im -> data im <> [] -> valid_connectivity c = true ->
  exists n, compute_number_of_clusters cc im c = Ok n /\ -32768 <= n <= 32767.
Proof.
  intros W Hne Hc. destruct (cc_returns cc Hcc im c W Hc) as [labeled Hl].
  destruct (cc_shape cc Hcc im c labeled Hl) as [_ Hlen].
  destruct (np_max_returns labeled) as [k Hk].
  { intros E. rewrite E in Hlen. destruct (data im); [congruence | discriminate]. }
  exists (astype_int16 k). split; [|apply astype_int16_range].
  unfold compute_number_of_clusters. rewrite Hl. cbn [bind]. rewrite Hk. reflexivity.
Qed.

(** The difference of two returned counts, in int16 arithmetic. *)
Lemma lesion_difference_of_counts (gt pred : ndarray bool) (a b : Z) :
  compute_number_of_clusters cc gt 26 = Ok a ->
  compute_number_of_clusters cc pred 26 = Ok b ->
  compute_absolute_lesion_difference cc gt pred =
  Ok (astype_int16 (Z.abs (astype_int16 (a - b)))).
Proof.
  intros Ha Hb. unfold compute_absolute_lesion_difference. rewrite Ha, Hb. reflexivity.
Qed.

(** X9: when both masks have at most 32767 components under connectivity
    26, [compute_absolute_lesion_difference] returns the absolute
    difference of the two numbers of components. *)
Theorem lesion_difference_exact (gt pred : ndarray bool) (lgt lpred : ndarray Z) :
  cc gt 26 = Ok lgt -> cc pred 26 = Ok lpred ->
  data gt <> [] -> data pred <> [] ->
  num_components lgt <= 32767 -> num_components lpred <= 32767 ->
  compute_absolute_lesion_difference cc gt pred =
  Ok (Z.abs (num_components lgt - num_components lpred)).
Proof.
  intros Hg Hp Hng Hnp Hbg Hbp.
  assert (Hcount : forall im labeled,
            cc im 26 = Ok labeled -> data im <> [] -> num_components labeled <= 32767 ->
            compute_number_of_clusters cc im 26 = Ok (num_components labeled) /\
            0 <= num_components labeled).
  { intros im labeled Hl Hne Hb.
    destruct (cc_shape cc Hcc im 26 labeled Hl) as [_ Hlen].
    destruct (np_max_returns labeled) as [k Hk].
    { intros E. rewrite E in Hlen. destruct (data im); [congruence | discriminate]. }
    pose proof (num_components_max cc Hcc im 26 labeled k Hl Hk) as Hn.
    pose proof (labeled_max_nonneg cc Hcc im 26 labeled k Hl Hk) as H0.
    unfold compute_number_of_clusters. rewrite Hl. cbn [bind]. rewrite Hk. cbn [bind].
    rewrite Hn in *. rewrite astype_int16_small by lia. split; [reflexivity | lia]. }
  destruct (Hcount gt lgt Hg Hng Hbg) as [Eg H0g].
  destruct (Hcount pred lpred Hp Hnp Hbp) as [Ep H0p].
  unfold compute_absolute_lesion_difference. rewrite Eg, Ep. cbn [bind].
  rewrite (astype_int16_small (_ - _)) by lia.
  rewrite astype_int16_small by lia. reflexivity.
Qed.

(** X10: a result of [compute_absolute_lesion_difference] lies between 0
    and 32767 or is -32768: the int16 arithmetic can make the absolute
    difference negative, and then it is -32768. *)
Theorem lesion_difference_range (gt pred : ndarray bool) (r : Z) :
  compute_absolute_lesion_difference cc gt pred = Ok r ->
  0 <= r <= 32767 \/ r = -32768.
Proof.
  unfold compute_absolute_lesion_difference.
  destruct (compute_number_of_clusters cc gt 26) as [a|]; cbn [bind]; [|discriminate].
  destruct (compute_number_of_clusters cc pred 26) as [b|]; cbn [bind]; [|discriminate].
  intros H. injection H as <-.
  pose proof (astype_int16_range (a - b)) as Hr.
  destruct (Z.eq_dec (astype_int16 (a - b)) (-32768)) as [E|E].
  - right. rewrite E. reflexivity.
  - left. rewrite astype_int16_small by lia. lia.
Qed.

(** X11: when both cluster counts are returned,
    [compute_absolute_lesion_difference] does not depend on the order of
    its two masks. *)
Theorem lesion_difference_symmetric (gt pred : ndarray bool) (a b : Z) :
  compute_number_of_clusters cc gt 26 = Ok a ->
  compute_number_of_clusters cc pred 26 = Ok b ->
  compute_absolute_lesion_difference cc gt pred =
  compute_absolute_lesion_difference cc pred gt.
Proof.
  intros Ha Hb. unfold compute_absolute_lesion_difference. rewrite Ha, Hb. cbn [bind].
  replace (b - a) with (- (a - b)) by lia. rewrite astype_int16_abs_opp. reflexivity.
Qed.

(** ** Lesion-wise F1, continued *)

(** X12: on two well-formed masks of one shape and non-zero size and a
    connectivity of 6, 18 or 26, [compute_lesion_f1_score] raises nothing
    and returns a score. *)
Theorem lesion_f1_returns (gt pred : ndarray bool) (empty_value : Q) (c : Z) :
  well_formed gt -> well_formed pred -> shape gt = shape pred ->
  data gt <> [] -> valid_connectivity c = true ->
  exists s, compute_lesion_f1_score cc gt pred empty_value c = Ok s.
Proof.
  intros Wg Wp Hs Hne Hc.
  destruct (lesion_wise_counts_returns cc Hcc gt pred c Wg Wp Hs Hne Hc)
    as (tp & fp & fn & Hrun).
  unfold compute_lesion_f1_score. rewrite Hrun. cbn [bind].
  rewrite (f1_from_counts_value cc Hcc gt pred empty_value c tp fp fn Wg Hrun). eauto.
Qed.

(** X13: when the counts are not all zero, the lesion-wise F1 score lies
    between 0 and 1 and is the usual 2·tp / (2·tp + fp + fn). *)
Theorem lesion_f1_unit_interval (gt pred : ndarray bool) (empty_value : Q)
    (c tp fp fn : Z) :
  well_formed gt ->
  lesion_wise_counts cc gt pred c = Ok (tp, fp, fn) ->
  tp + fp + fn <> 0 ->
  exists s,
    compute_lesion_f1_score cc gt pred empty_value c = Ok s /\
    (0 <= s <= 1)%Q /\
    (s == inject_Z (2 * tp) / inject_Z (2 * tp + fp + fn))%Q.
Proof.
  intros W Hrun Hsum.
  destruct (zero_counts_no_clusters cc Hcc gt pred c tp fp fn W Hrun)
    as (Htp & Hfp & Hfn & _).
  destruct (f1_formula_facts tp fp fn Htp Hfp Hfn Hsum) as (Hr & Hstd & _).
  eexists. split; [|split; [exact Hr | exact Hstd]].
  unfold compute_lesion_f1_score. rewrite Hrun. cbn [bind].
  rewrite (f1_from_counts_value cc Hcc gt pred empty_value c tp fp fn W Hrun).
  destruct (Z.eqb_spec (tp + fp + fn) 0); [contradiction | reflexivity].
Qed.

(** X14: when the counts are not all zero, the score is 0 exactly when no
    ground-truth lesion is detected, and 1 exactly when there is neither a
    false positive nor a false negative. *)
Theorem lesion_f1_extremes (gt pred : ndarray bool) (empty_value : Q)
    (c tp fp fn : Z) :
  well_formed gt ->
  lesion_wise_counts cc gt pred c = Ok (tp, fp, fn) ->
  tp + fp + fn <> 0 ->
  exists s,
    compute_lesion_f1_score cc gt pred empty_value c = Ok s /\
    ((s == 0)%Q <-> tp = 0) /\
    ((s == 1)%Q <-> fp = 0 /\ fn = 0).
Proof.
  intros W Hrun Hsum.
  destruct (zero_counts_no_clusters cc Hcc gt pred c tp fp fn W Hrun)
    as (Htp & Hfp & Hfn & _).
  destruct (f1_formula_facts tp fp fn Htp Hfp Hfn Hsum) as (_ & _ & Hz & Ho).
  eexists. split; [|split; [exact Hz | exact Ho]].
  unfold compute_lesion_f1_score. rewrite Hrun. cbn [bind].
  rewrite (f1_from_counts_value cc Hcc gt pred empty_value c tp fp fn W Hrun).
  destruct (Z.eqb_spec (tp + fp + fn) 0); [contradiction | reflexivity].
Qed.

(** X15: two masks without foreground, of one shape and non-zero size, have
    counts (0, 0, 0) and score [empty_value]. *)
Theorem lesion_f1_both_empty (gt pred : ndarray bool) (empty_value : Q) (c : Z) :
  well_formed gt -> well_formed pred -> shape gt = shape pred ->
  data gt <> [] -> valid_connectivity c = true ->
  (forall i, nth i (data gt) false = false) ->
  (forall i, nth i (data pred) false = false) ->
  lesion_wise_counts cc gt pred c = Ok (0, 0, 0) /\
  compute_lesion_f1_score cc gt pred empty_value c = Ok empty_value.
Proof.
  intros Wg Wp Hs Hne Hc Hbg Hbp.
  destruct (labelings gt pred c Wg Wp Hs Hne Hc)
    as (lgt & lpred & kgt & kpred & Hg & Hkg & Hp & Hkp & _).
  pose proof (no_foreground_max_zero cc Hcc gt c lgt kgt Hg Hkg Hbg) as ->.
  pose proof (no_foreground_max_zero cc Hcc pred c lpred kpred Hp Hkp Hbp) as ->.
  pose proof (lesion_wise_counts_eq cc Hcc gt pred c lgt lpred 0 0 Hs Hg Hkg Hp Hkp) as E.
  cbv zeta in E. change (py_range 1 (0 + 1)) with (@nil Z) in E.
  change (count_if _ []) with 0 in E.
  split; [exact E|].
  unfold compute_lesion_f1_score. rewrite E. cbn [bind].
  rewrite (f1_from_counts_value cc Hcc gt pred empty_value c 0 0 0 Wg E). reflexivity.
Qed.

(** X16: two masks of one shape with no voxel in common, and at least one
    foreground voxel between them, have no true positive: every component
    of the prediction is a false positive, every component of the ground
    truth a false negative, and the score is 0. *)
Theorem lesion_f1_disjoint (gt pred : ndarray bool) (empty_value : Q) (c : Z) :
  well_formed gt -> well_formed pred -> shape gt = shape pred ->
  valid_connectivity c = true ->
  (forall i, nth i (data gt) false && nth i (data pred) false = false) ->
  (exists i, nth i (data gt) false || nth i (data pred) false = true) ->
  exists lgt lpred s,
    cc gt c = Ok lgt /\ cc pred c = Ok lpred /\
    lesion_wise_counts cc gt pred c =
      Ok (0, num_components lpred, num_components lgt) /\
    compute_lesion_f1_score cc gt pred empty_value c = Ok s /\ (s == 0)%Q.
Proof.
  intros Wg Wp Hs Hc Hdis [i0 Hi0].
  pose proof (equal_shape_lengths gt pred Wg Wp Hs) as Hlen.
  assert (Hne : data gt <> []).
  { intros E. rewrite E in Hlen, Hi0. destruct (data pred); [|discriminate].
    destruct i0; discriminate. }
  destruct (labelings gt pred c Wg Wp Hs Hne Hc)
    as (lgt & lpred & kgt & kpred & Hg & Hkg & Hp & Hkp & Hng & Hnp & H0g & H0p).
  pose proof (lesion_wise_counts_eq cc Hcc gt pred c lgt lpred kgt kpred Hs Hg Hkg Hp Hkp) as E.
  cbv zeta in E.
  rewrite count_if_none in E.
  2:{ intros l _. apply not_true_is_false. rewrite cluster_hits_overlaps_both.
      intros [i [_ Hi]]. rewrite Hdis in Hi. discriminate. }
  rewrite count_if_all in E.
  2:{ intros l Hin. apply negb_true_iff, not_true_is_false.
      rewrite cluster_hits_overlaps. intros [i [Hci Hi]].
      pose proof (cluster_member_foreground pred c lpred kpred l i Hp Hin Hci) as Hpi.
      specialize (Hdis i). rewrite Hi, Hpi in Hdis. discriminate. }
  rewrite count_if_all in E.
  2:{ intros l _. apply negb_true_iff, not_true_is_false.
      rewrite cluster_hits_overlaps_both.
      intros [i [_ Hi]]. rewrite Hdis in Hi. discriminate. }
  rewrite !py_range_length in E by lia.
  replace (kgt + 1 - 1) with kgt in E by lia.
  replace (kpred + 1 - 1) with kpred in E by lia.
  assert (Hsum : 0 + kpred + kgt <> 0).
  { apply orb_true_iff in Hi0 as [Hi|Hi].
    - apply (cc_foreground cc Hcc gt c lgt Hg) in Hi.
      pose proof (nth_In (data lgt) 0 (nonzero_label_in_range _ _ Hi)) as Hin.
      pose proof (cc_nonneg cc Hcc gt c lgt Hg _ Hin).
      apply np_max_spec in Hkg as [_ Hmax]. specialize (Hmax _ Hin). lia.
    - apply (cc_foreground cc Hcc pred c lpred Hp) in Hi.
      pose proof (nth_In (data lpred) 0 (nonzero_label_in_range _ _ Hi)) as Hin.
      pose proof (cc_nonneg cc Hcc pred c lpred Hp _ Hin).
      apply np_max_spec in Hkp as [_ Hmax]. specialize (Hmax _ Hin). lia. }
  destruct (f1_formula_facts 0 kpred kgt ltac:(lia) H0p H0g Hsum) as (_ & _ & Hz & _).
  exists lgt, lpred. eexists. rewrite Hng, Hnp.
  split; [exact Hg|]. split; [exact Hp|]. split; [exact E|]. split.
  - unfold compute_lesion_f1_score. rewrite E. cbn [bind].
    rewrite (f1_from_counts_value cc Hcc gt pred empty_value c 0 kpred kgt Wg E).
    destruct (Z.eqb_spec (0 + kpred + kgt) 0); [contradiction | reflexivity].
  - apply Hz. reflexivity.
Qed.

(** X17: on equal shapes, when the prediction covers the ground truth every
    ground-truth component is a true positive and none is a false
    negative. *)
Theorem lesion_f1_covered_ground_truth (gt pred : ndarray bool) (c tp fp fn : Z) :
  shape gt = shape pred ->
  lesion_wise_counts cc gt pred c = Ok (tp, fp, fn) ->
  (forall i, nth i (data gt) false = true -> nth i (data pred) false = true) ->
  exists lgt, cc gt c = Ok lgt /\ tp = num_components lgt /\ fn = 0.
Proof.
  intros Hs Hrun Hsub.
  destruct (lesion_wise_counts_run cc gt pred c tp fp fn Hrun)
    as (inter & lgt & lpred & kgt & kpred & _ & Hg & Hkg & Hp & Hkp & _).
  pose proof (lesion_wise_counts_eq cc Hcc gt pred c lgt lpred kgt kpred Hs Hg Hkg Hp Hkp) as E.
  cbv zeta in E. rewrite Hrun in E.
  assert (Hhit : forall l, In l (py_range 1 (kgt + 1)) ->
            cluster_hits lgt (mk_ndarray (shape gt) (zip_and (data gt) (data pred))) l = true).
  { intros l Hin. apply cluster_hits_overlaps_both.
    destruct (cluster_voxel gt c lgt kgt l Hg Hkg Hin) as [i [Hci Hi]].
    exists i. split; [exact Hci|]. rewrite Hi, (Hsub i Hi). reflexivity. }
  rewrite count_if_all in E by exact Hhit.
  rewrite (count_if_none
             (fun l => negb (cluster_hits lgt
                (mk_ndarray (shape gt) (zip_and (data gt) (data pred))) l))) in E
    by (intros l Hin; cbv beta; rewrite Hhit by exact Hin; reflexivity).
  pose proof (labeled_max_nonneg cc Hcc gt c lgt kgt Hg Hkg) as H0.
  rewrite py_range_length in E by lia. injection E as -> _ ->.
  exists lgt. split; [exact Hg|].
  rewrite (num_components_max cc Hcc gt c lgt kgt Hg Hkg). split; [lia | reflexivity].
Qed.

(** X18: on equal shapes, when the prediction lies inside the ground truth
    there is no false positive. *)
Theorem lesion_f1_contained_prediction (gt pred : ndarray bool) (c tp fp fn : Z) :
  shape gt = shape pred ->
  lesion_wise_counts cc gt pred c = Ok (tp, fp, fn) ->
  (forall i, nth i (data pred) false = true -> nth i (data gt) false = true) ->
  fp = 0.
Proof.
  intros Hs Hrun Hsub.
  destruct (lesion_wise_counts_run cc gt pred c tp fp fn Hrun)
    as (inter & lgt & lpred & kgt & kpred & _ & Hg & Hkg & Hp & Hkp & _).
  pose proof (lesion_wise_counts_eq cc Hcc gt pred c lgt lpred kgt kpred Hs Hg Hkg Hp Hkp) as E.
  cbv zeta in E. rewrite Hrun in E. injection E as _ -> _.
  apply count_if_none. intros l Hin. apply negb_false_iff, cluster_hits_overlaps.
  destruct (cluster_voxel pred c lpred kpred l Hp Hkp Hin) as [i [Hci Hi]].
  exists i. split; [exact Hci | apply Hsub; exact Hi].
Qed.

(** X19: on a zero-size ground truth [compute_lesion_f1_score] returns no
    score: it raises. *)
Theorem lesion_f1_zero_size (gt pred : ndarray bool) (empty_value : Q) (c : Z) :
  data gt = [] ->
  exists e, compute_lesion_f1_score cc gt pred empty_value c = Raise e.
Proof.
  intros He. unfold compute_lesion_f1_score, lesion_wise_counts.
  destruct (logical_and gt pred) as [inter|e]; cbn [bind]; [|eauto].
  destruct (cc gt c) as [lgt|e] eqn:Hg; cbn [bind]; [|eauto].
  rewrite (zero_size_labels gt c lgt He Hg). cbn [bind]. eauto.
Qed.

End MoreLesionWise.

(** ** Instances of the further properties *)

(** Case analysis on the index of a voxel of a five-voxel sample. *)
Ltac sample_voxels i :=
  do 5 (destruct i as [|i];
        [first [reflexivity | intros _; reflexivity | intros H; discriminate H]|]);
  destruct i; first [reflexivity | intros H; discriminate H].

Lemma blank_line_well_formed : well_formed blank_line.
Proof. vm_compute. repeat split; discriminate. Qed.

Lemma blank_line_background (i : nat) : nth i (data blank_line) false = false.
Proof.
  unfold blank_line. cbn [data]. generalize (Z.to_nat 65535). intros n. revert i.
  induction n as [|n IH]; intros [|i]; simpl; auto.
Qed.

Lemma blank_line_nonempty : data blank_line <> [].
Proof.
  unfold blank_line. cbn [data].
  assert (Hpos : (0 < Z.to_nat 65535)%nat) by lia.
  destruct (Z.to_nat 65535); [lia | discriminate].
Qed.

Example isolated_line_difference :
  compute_absolute_lesion_difference flood_fill_components isolated_line blank_line =
  Ok (-32768).
Proof.
  exact (lesion_difference_of_counts flood_fill_components isolated_line blank_line
           (-32768) 0 isolated_line_clusters
           (no_foreground_no_clusters flood_fill_components flood_fill_contract blank_line
              blank_line_well_formed blank_line_nonempty blank_line_background)).
Qed.

Lemma compute_dice_unit_interval_witness :
  shape sample_ground_truth = shape sample_prediction /\
  np_sum sample_ground_truth + np_sum sample_prediction <> 0 /\
  exists s, compute_dice sample_ground_truth sample_prediction 1 = Ok s /\
            (0 <= s <= 1)%Q.
Proof.
  split; [reflexivity|]. split; [vm_compute; discriminate|].
  apply (compute_dice_unit_interval sample_ground_truth sample_prediction 1);
    [reflexivity | vm_compute; discriminate].
Defined.

Lemma compute_dice_one_iff_equal_witness :
  well_formed sample_ground_truth /\ well_formed sample_prediction /\
  shape sample_ground_truth = shape sample_prediction /\
  np_sum sample_ground_truth + np_sum sample_prediction <> 0 /\
  exists s, compute_dice sample_ground_truth sample_prediction 1 = Ok s /\
            ((s == 1)%Q <-> data sample_ground_truth = data sample_prediction).
Proof.
  split; [unfold well_formed; simpl; lia|]. split; [unfold well_formed; simpl; lia|].
  split; [reflexivity|]. split; [vm_compute; discriminate|].
  apply (compute_dice_one_iff_equal sample_ground_truth sample_prediction 1);
    [unfold well_formed; simpl; lia | unfold well_formed; simpl; lia
    | reflexivity | vm_compute; discriminate].
Defined.

Lemma compute_dice_zero_iff_disjoint_witness :
  shape sample_ground_truth = shape sample_apart /\
  np_sum sample_ground_truth + np_sum sample_apart <> 0 /\
  exists s, compute_dice sample_ground_truth sample_apart 1 = Ok s /\
            ((s == 0)%Q <->
             forall i, nth i (data sample_ground_truth) false &&
                       nth i (data sample_apart) false = false).
Proof.
  split; [reflexivity|]. split; [vm_compute; discriminate|].
  apply (compute_dice_zero_iff_disjoint sample_ground_truth sample_apart 1);
    [reflexivity | vm_compute; discriminate].
Defined.

Lemma compute_number_of_clusters_zero_size_witness :
  data (mk_ndarray (0, 0, 0) (@nil bool)) = [] /\
  exists e,
    compute_number_of_clusters flood_fill_components (mk_ndarray (0, 0, 0) []) 26 =
      Raise e /\
    (forall labeled,
       flood_fill_components (mk_ndarray (0, 0, 0) []) 26 = Ok labeled ->
       e = ValueError).
Proof.
  split; [reflexivity|].
  apply (compute_number_of_clusters_zero_size flood_fill_components flood_fill_contract
           (mk_ndarray (0, 0, 0) []) 26).
  reflexivity.
Defined.

Lemma compute_number_of_clusters_zero_iff_witness :
  flood_fill_components sample_blank 6 = Ok (mk_ndarray (1, 1, 5) [0; 0; 0; 0; 0]) /\
  data sample_blank <> [] /\
  ((forall i, nth i (data sample_blank) false = false) ->
   compute_number_of_clusters flood_fill_components sample_blank 6 = Ok 0) /\
  (compute_number_of_clusters flood_fill_components sample_blank 6 = Ok 0 ->
   num_components (mk_ndarray (1, 1, 5) [0; 0; 0; 0; 0]) < 65536 ->
   forall i, nth i (data sample_blank) false = false).
Proof.
  split; [vm_compute; reflexivity|]. split; [discriminate|].
  apply (compute_number_of_clusters_zero_iff flood_fill_components flood_fill_contract
           sample_blank 6 (mk_ndarray (1, 1, 5) [0; 0; 0; 0; 0]));
    [vm_compute; reflexivity | discriminate].
Defined.

Lemma compute_number_of_clusters_returns_witness :
  well_formed sample_ground_truth /\ data sample_ground_truth <> [] /\
  valid_connectivity 18 = true /\
  exists n, compute_number_of_clusters flood_fill_components sample_ground_truth 18 =
            Ok n /\ -32768 <= n <= 32767.
Proof.
  split; [unfold well_formed; simpl; lia|]. split; [discriminate|].
  split; [reflexivity|].
  apply (compute_number_of_clusters_returns flood_fill_components flood_fill_contract
           sample_ground_truth 18);
    [unfold well_formed; simpl; lia | discriminate | reflexivity].
Defined.

Lemma lesion_difference_exact_witness :
  flood_fill_components sample_ground_truth 26 =
    Ok (mk_ndarray (1, 1, 5) [1; 0; 2; 0; 0]) /\
  flood_fill_components sample_cover 26 = Ok (mk_ndarray (1, 1, 5) [1; 1; 1; 0; 0]) /\
  data sample_ground_truth <> [] /\ data sample_cover <> [] /\
  num_components (mk_ndarray (1, 1, 5) [1; 0; 2; 0; 0]) <= 32767 /\
  num_components (mk_ndarray (1, 1, 5) [1; 1; 1; 0; 0]) <= 32767 /\
  compute_absolute_lesion_difference flood_fill_components
    sample_ground_truth sample_cover =
  Ok (Z.abs (num_components (mk_ndarray (1, 1, 5) [1; 0; 2; 0; 0]) -
             num_components (mk_ndarray (1, 1, 5) [1; 1; 1; 0; 0]))).
Proof.
  split; [vm_compute; reflexivity|]. split; [vm_compute; reflexivity|].
  split; [discriminate|]. split; [discriminate|].
  split; [vm_compute; discriminate|]. split; [vm_compute; discriminate|].
  apply (lesion_difference_exact flood_fill_components flood_fill_contract
           sample_ground_truth sample_cover);
    [vm_compute; reflexivity | vm_compute; reflexivity | discriminate | discriminate
    | vm_compute; discriminate | vm_compute; discriminate].
Defined.

Lemma lesion_difference_range_witness :
  compute_absolute_lesion_difference flood_fill_components isolated_line blank_line =
    Ok (-32768) /\
  (0 <= -32768 <= 32767 \/ -32768 = -32768).
Proof.
  split; [exact isolated_line_difference|].
  apply (lesion_difference_range flood_fill_components isolated_line blank_line (-32768)).
  exact isolated_line_difference.
Defined.

Lemma lesion_difference_symmetric_witness :
  compute_number_of_clusters flood_fill_components sample_ground_truth 26 = Ok 2 /\
  compute_number_of_clusters flood_fill_components sample_cover 26 = Ok 1 /\
  compute_absolute_lesion_difference flood_fill_components
    sample_ground_truth sample_cover =
  compute_absolute_lesion_difference flood_fill_components
    sample_cover sample_ground_truth.
Proof.
  split; [vm_compute; reflexivity|]. split; [vm_compute; reflexivity|].
  apply (lesion_difference_symmetric flood_fill_components
           sample_ground_truth sample_cover 2 1);
    vm_compute; reflexivity.
Defined.

Lemma lesion_f1_returns_witness :
  well_formed sample_ground_truth /\ well_formed sample_prediction /\
  shape sample_ground_truth = shape sample_prediction /\
  data sample_ground_truth <> [] /\ valid_connectivity 18 = true /\
  exists s, compute_lesion_f1_score flood_fill_components
              sample_ground_truth sample_prediction 1 18 = Ok s.
Proof.
  split; [unfold well_formed; simpl; lia|]. split; [unfold well_formed; simpl; lia|].
  split; [reflexivity|]. split; [discriminate|]. split; [reflexivity|].
  apply (lesion_f1_returns flood_fill_components flood_fill_contract
           sample_ground_truth sample_prediction 1 18);
    [unfold well_formed; simpl; lia | unfold well_formed; simpl; lia
    | reflexivity | discriminate | reflexivity].
Defined.

Lemma lesion_f1_unit_interval_witness :
  well_formed sample_ground_truth /\
  lesion_wise_counts flood_fill_components sample_ground_truth sample_prediction 26 =
    Ok (1, 1, 1) /\
  1 + 1 + 1 <> 0 /\
  exists s,
    compute_lesion_f1_score flood_fill_components
      sample_ground_truth sample_prediction 1 26 = Ok s /\
    (0 <= s <= 1)%Q /\
    (s == inject_Z (2 * 1) / inject_Z (2 * 1 + 1 + 1))%Q.
Proof.
  split; [unfold well_formed; simpl; lia|]. split; [vm_compute; reflexivity|].
  split; [lia|].
  apply (lesion_f1_unit_interval flood_fill_components flood_fill_contract
           sample_ground_truth sample_prediction 1 26 1 1 1);
    [unfold well_formed; simpl; lia | vm_compute; reflexivity | lia].
Defined.

Lemma lesion_f1_extremes_witness :
  well_formed sample_ground_truth /\
  lesion_wise_counts flood_fill_components sample_ground_truth sample_prediction 26 =
    Ok (1, 1, 1) /\
  1 + 1 + 1 <> 0 /\
  exists s,
    compute_lesion_f1_score flood_fill_components
      sample_ground_truth sample_prediction 1 26 = Ok s /\
    ((s == 0)%Q <-> 1 = 0) /\
    ((s == 1)%Q <-> 1 = 0 /\ 1 = 0).
Proof.
  split; [unfold well_formed; simpl; lia|]. split; [vm_compute; reflexivity|].
  split; [lia|].
  apply (lesion_f1_extremes flood_fill_components flood_fill_contract
           sample_ground_truth sample_prediction 1 26 1 1 1);
    [unfold well_formed; simpl; lia | vm_compute; reflexivity | lia].
Defined.

Lemma lesion_f1_both_empty_witness :
  well_formed sample_blank /\ shape sample_blank = shape sample_blank /\
  data sample_blank <> [] /\ valid_connectivity 26 = true /\
  (forall i, nth i (data sample_blank) false = false) /\
  lesion_wise_counts flood_fill_components sample_blank sample_blank 26 = Ok (0, 0, 0) /\
  compute_lesion_f1_score flood_fill_components sample_blank sample_blank (1 # 2) 26 =
  Ok (1 # 2).
Proof.
  assert (Hbg : forall i, nth i (data sample_blank) false = false).
  { intros i. sample_voxels i. }
  split; [unfold well_formed; simpl; lia|]. split; [reflexivity|].
  split; [discriminate|]. split; [reflexivity|]. split; [exact Hbg|].
  apply (lesion_f1_both_empty flood_fill_components flood_fill_contract
           sample_blank sample_blank (1 # 2) 26);
    [unfold well_formed; simpl; lia | unfold well_formed; simpl; lia
    | reflexivity | discriminate | reflexivity | exact Hbg | exact Hbg].
Defined.

Lemma lesion_f1_disjoint_witness :
  well_formed sample_ground_truth /\ well_formed sample_apart /\
  shape sample_ground_truth = shape sample_apart /\
  valid_connectivity 26 = true /\
  (forall i, nth i (data sample_ground_truth) false &&
             nth i (data sample_apart) false = false) /\
  (exists i, nth i (data sample_ground_truth) false ||
             nth i (data sample_apart) false = true) /\
  exists lgt lpred s,
    flood_fill_components sample_ground_truth 26 = Ok lgt /\
    flood_fill_components sample_apart 26 = Ok lpred /\
    lesion_wise_counts flood_fill_components sample_ground_truth sample_apart 26 =
      Ok (0, num_components lpred, num_components lgt) /\
    compute_lesion_f1_score flood_fill_components
      sample_ground_truth sample_apart 1 26 = Ok s /\ (s == 0)%Q.
Proof.
  assert (Hdis : forall i, nth i (data sample_ground_truth) false &&
                           nth i (data sample_apart) false = false).
  { intros i. sample_voxels i. }
  split; [unfold well_formed; simpl; lia|]. split; [unfold well_formed; simpl; lia|].
  split; [reflexivity|]. split; [reflexivity|]. split; [exact Hdis|].
  split; [exists 0%nat; reflexivity|].
  apply (lesion_f1_disjoint flood_fill_components flood_fill_contract
           sample_ground_truth sample_apart 1 26);
    [unfold well_formed; simpl; lia | unfold well_formed; simpl; lia
    | reflexivity | reflexivity | exact Hdis | exists 0%nat; reflexivity].
Defined.

Lemma lesion_f1_covered_ground_truth_witness :
  shape sample_ground_truth = shape sample_cover /\
  lesion_wise_counts flood_fill_components sample_ground_truth sample_cover 26 =
    Ok (2, 0, 0) /\
  (forall i, nth i (data sample_ground_truth) false = true ->
             nth i (data sample_cover) false = true) /\
  exists lgt, flood_fill_components sample_ground_truth 26 = Ok lgt /\
              2 = num_components lgt /\ 0 = 0.
Proof.
  assert (Hsub : forall i, nth i (data sample_ground_truth) false = true ->
                           nth i (data sample_cover) false = true).
  { intros i. sample_voxels i. }
  split; [reflexivity|]. split; [vm_compute; reflexivity|]. split; [exact Hsub|].
  apply (lesion_f1_covered_ground_truth flood_fill_components flood_fill_contract
           sample_ground_truth sample_cover 26 2 0 0);
    [reflexivity | vm_compute; reflexivity | exact Hsub].
Defined.

Lemma lesion_f1_contained_prediction_witness :
  shape sample_ground_truth = shape sample_inside /\
  lesion_wise_counts flood_fill_components sample_ground_truth sample_inside 26 =
    Ok (1, 0, 1) /\
  (forall i, nth i (data sample_inside) false = true ->
             nth i (data sample_ground_truth) false = true) /\
  0 = 0.
Proof.
  assert (Hsub : forall i, nth i (data sample_inside) false = true ->
                           nth i (data sample_ground_truth) false = true).
  { intros i. sample_voxels i. }
  split; [reflexivity|]. split; [vm_compute; reflexivity|]. split; [exact Hsub|].
  apply (lesion_f1_contained_prediction flood_fill_components flood_fill_contract
           sample_ground_truth sample_inside 26 1 0 1);
    [reflexivity | vm_compute; reflexivity | exact Hsub].
Defined.

Lemma lesion_f1_zero_size_witness :
  data (mk_ndarray (0, 0, 0) (@nil bool)) = [] /\
  exists e, compute_lesion_f1_score flood_fill_components
              (mk_ndarray (0, 0, 0) []) (mk_ndarray (0, 0, 0) []) 1 26 = Raise e.
Proof.
  split; [reflexivity|].
  apply (lesion_f1_zero_size flood_fill_components flood_fill_contract
           (mk_ndarray (0, 0, 0) []) (mk_ndarray (0, 0, 0) []) 1 26).
  reflexivity.
Defined.
